(** * SWIFT frontend: snapshot metadata parsing

    A shallow embedding of [yt/frontends/swift/data_structures.py]: the
    three hooks of [SwiftDataset] ([_is_valid], [_parse_parameter_file] and
    [_set_code_unit_attributes]) together with [_get_info_attributes], and
    the properties of the metadata they derive from a snapshot. *)

From Stdlib Require Import ZArith PrimFloat FloatOps SpecFloat.
From stdpp Require Import gmap strings list.

Local Open Scope string_scope.
Local Open Scope Z_scope.

(** ** Exceptions and results *)

(** The Python exception classes that the operations below can raise. *)
Inductive exn : Type :=
| OSError
| KeyError
| ValueError
| UnicodeDecodeError
| TypeError
| AttributeError
| OverflowError
| MemoryError.

#[global] Instance exn_eq_dec : EqDecision exn.
Proof. solve_decision. Defined.

(** [issubclass e c]: the class hierarchy, as far as these classes go
    ([UnicodeDecodeError] derives from [ValueError]). *)
Definition issubclass (e c : exn) : bool :=
  match e, c with
  | UnicodeDecodeError, ValueError => true
  | _, _ => bool_decide (e = c)
  end.

(** An [except (c1, ..., cn)] clause catches [e] when [e] is an instance of
    one of the listed classes. *)
Definition catches (classes : list exn) (e : exn) : bool :=
  existsb (issubclass e) classes.

(** The outcome of evaluating an expression: [inl e] when [e] was raised. *)
Definition result (A : Type) : Type := (exn + A)%type.

Definition raise {A : Type} (e : exn) : result A := inl e.

#[global] Instance result_ret : MRet result := λ A a, inr a.
#[global] Instance result_bind : MBind result := λ A B k r,
  match r with
  | inl e => inl e
  | inr a => k a
  end.

(** [try: body except classes: handler], on expressions. *)
Definition try_result {A : Type} (body : result A) (classes : list exn)
    (handler : result A) : result A :=
  match body with
  | inl e => if catches classes e then handler else inl e
  | inr a => inr a
  end.

(** [d[k]] on a dictionary: [KeyError] when the key is missing. *)
Definition getitem {V : Type} (d : gmap string V) (k : string) : result V :=
  match d !! k with
  | Some v => inr v
  | None => raise KeyError
  end.

(** [k in d]. *)
Definition contains {V : Type} (d : gmap string V) (k : string) : bool :=
  bool_decide (is_Some (d !! k)).

(** ** Host side: quantities and logging *)

(** Modelled from the spec: [self.quan(magnitude, symbol)] of the host's
    unit machinery, kept as the (magnitude, unit-symbol) pair. *)
Record YTQuantity : Type := quan { magnitude : float; unit_symbol : string }.

Inductive loglevel : Type := WARNING | INFO.

(** What [mylog] has emitted, oldest record first. *)
Definition logbook : Type := list (loglevel * string).

Section Swift.

(** The values HDF5 attributes hold, as the HDF5 binding hands them back,
    and the Python/NumPy built-ins applied to them. *)
Context {attr : Type}.
Variable py_float : attr → result float.      (* float(x) *)
Variable py_int : attr → result Z.            (* int(x) *)
Variable decode_utf8 : attr → result string.  (* x.decode("utf-8") *)
Variable zeros_like : attr → attr.            (* np.zeros_like(x) *)

(** An open container: its top-level objects, each with its attributes. *)
Abbreviation attrs := (gmap string attr).
Abbreviation hdf5 := (gmap string (gmap string attr)).

(** [h5py.File(path, mode="r")]: the containers that can be opened; [None]
    where opening fails. *)
Variable fs : string → option hdf5.

(** Modelled from the spec: the host tells whether this is the coordinating
    process ([only_on_root]) and whether the HDF5 binding is missing
    ([_missing_load_requirements]). *)
Variable is_root : bool.
Variable missing_load_requirements : bool.

(** The limits of the interpreter: [sys.maxsize], the largest index-sized
    integer, and the length of the longest list it has the memory for. *)
Variable maxsize : Z.
Variable list_capacity : Z.

(** [[x] * n]: list repetition.  The count is converted to an index-sized
    integer, [OverflowError] when it does not fit; the list of that length
    is then allocated, [MemoryError] when it cannot be; a negative count
    gives the empty list. *)
Definition list_mul {A : Type} (x : A) (n : Z) : result (list A) :=
  if (n <? - maxsize - 1) || (maxsize <? n) then raise OverflowError
  else if list_capacity <? n then raise MemoryError
  else mret (replicate (Z.to_nat n) x).

Definition h5py_File (path : string) : result hdf5 :=
  match fs path with
  | Some handle => inr handle
  | None => raise OSError
  end.

(** [float(d[k])] and [int(d[k])]. *)
Definition float_item (d : attrs) (k : string) : result float :=
  getitem d k ≫= py_float.

Definition int_item (d : attrs) (k : string) : result Z :=
  getitem d k ≫= py_int.

(** ** The dataset descriptor *)

Record SwiftDataset : Type := mkSwiftDataset {
  filename : string;
  parameter_filename : string;
  length_unit : YTQuantity;
  mass_unit : YTQuantity;
  time_unit : YTQuantity;
  temperature_unit : YTQuantity;
  domain_right_edge : attr;
  domain_left_edge : attr;
  dimensionality : Z;
  _periodicity : list bool;
  current_time : float;
  cosmological_simulation : Z;
  current_redshift : float;
  omega_lambda : float;
  omega_matter : float;
  hubble_constant : float;
  parameters : gmap string (gmap string attr);
  file_count : Z;
  filename_template : string
}.

Definition set_length_unit (v : YTQuantity) (d : SwiftDataset) : SwiftDataset :=
  mkSwiftDataset (filename d) (parameter_filename d) v (mass_unit d)
    (time_unit d) (temperature_unit d) (domain_right_edge d)
    (domain_left_edge d) (dimensionality d) (_periodicity d) (current_time
    d) (cosmological_simulation d) (current_redshift d) (omega_lambda d)
    (omega_matter d) (hubble_constant d) (parameters d) (file_count d)
    (filename_template d).

Definition set_mass_unit (v : YTQuantity) (d : SwiftDataset) : SwiftDataset :=
  mkSwiftDataset (filename d) (parameter_filename d) (length_unit d) v
    (time_unit d) (temperature_unit d) (domain_right_edge d)
    (domain_left_edge d) (dimensionality d) (_periodicity d) (current_time
    d) (cosmological_simulation d) (current_redshift d) (omega_lambda d)
    (omega_matter d) (hubble_constant d) (parameters d) (file_count d)
    (filename_template d).

Definition set_time_unit (v : YTQuantity) (d : SwiftDataset) : SwiftDataset :=
  mkSwiftDataset (filename d) (parameter_filename d) (length_unit d)
    (mass_unit d) v (temperature_unit d) (domain_right_edge d)
    (domain_left_edge d) (dimensionality d) (_periodicity d) (current_time
    d) (cosmological_simulation d) (current_redshift d) (omega_lambda d)
    (omega_matter d) (hubble_constant d) (parameters d) (file_count d)
    (filename_template d).

Definition set_temperature_unit (v : YTQuantity) (d : SwiftDataset) : SwiftDataset :=
  mkSwiftDataset (filename d) (parameter_filename d) (length_unit d)
    (mass_unit d) (time_unit d) v (domain_right_edge d) (domain_left_edge
    d) (dimensionality d) (_periodicity d) (current_time d)
    (cosmological_simulation d) (current_redshift d) (omega_lambda d)
    (omega_matter d) (hubble_constant d) (parameters d) (file_count d)
    (filename_template d).

Definition set_domain_right_edge (v : attr) (d : SwiftDataset) : SwiftDataset :=
  mkSwiftDataset (filename d) (parameter_filename d) (length_unit d)
    (mass_unit d) (time_unit d) (temperature_unit d) v (domain_left_edge
    d) (dimensionality d) (_periodicity d) (current_time d)
    (cosmological_simulation d) (current_redshift d) (omega_lambda d)
    (omega_matter d) (hubble_constant d) (parameters d) (file_count d)
    (filename_template d).

Definition set_domain_left_edge (v : attr) (d : SwiftDataset) : SwiftDataset :=
  mkSwiftDataset (filename d) (parameter_filename d) (length_unit d)
    (mass_unit d) (time_unit d) (temperature_unit d) (domain_right_edge d)
    v (dimensionality d) (_periodicity d) (current_time d)
    (cosmological_simulation d) (current_redshift d) (omega_lambda d)
    (omega_matter d) (hubble_constant d) (parameters d) (file_count d)
    (filename_template d).

Definition set_dimensionality (v : Z) (d : SwiftDataset) : SwiftDataset :=
  mkSwiftDataset (filename d) (parameter_filename d) (length_unit d)
    (mass_unit d) (time_unit d) (temperature_unit d) (domain_right_edge d)
    (domain_left_edge d) v (_periodicity d) (current_time d)
    (cosmological_simulation d) (current_redshift d) (omega_lambda d)
    (omega_matter d) (hubble_constant d) (parameters d) (file_count d)
    (filename_template d).

Definition set_periodicity (v : list bool) (d : SwiftDataset) : SwiftDataset :=
  mkSwiftDataset (filename d) (parameter_filename d) (length_unit d)
    (mass_unit d) (time_unit d) (temperature_unit d) (domain_right_edge d)
    (domain_left_edge d) (dimensionality d) v (current_time d)
    (cosmological_simulation d) (current_redshift d) (omega_lambda d)
    (omega_matter d) (hubble_constant d) (parameters d) (file_count d)
    (filename_template d).

Definition set_current_time (v : float) (d : SwiftDataset) : SwiftDataset :=
  mkSwiftDataset (filename d) (parameter_filename d) (length_unit d)
    (mass_unit d) (time_unit d) (temperature_unit d) (domain_right_edge d)
    (domain_left_edge d) (dimensionality d) (_periodicity d) v
    (cosmological_simulation d) (current_redshift d) (omega_lambda d)
    (omega_matter d) (hubble_constant d) (parameters d) (file_count d)
    (filename_template d).

Definition set_cosmological_simulation (v : Z) (d : SwiftDataset) : SwiftDataset :=
  mkSwiftDataset (filename d) (parameter_filename d) (length_unit d)
    (mass_unit d) (time_unit d) (temperature_unit d) (domain_right_edge d)
    (domain_left_edge d) (dimensionality d) (_periodicity d) (current_time
    d) v (current_redshift d) (omega_lambda d) (omega_matter d)
    (hubble_constant d) (parameters d) (file_count d) (filename_template
    d).

Definition set_current_redshift (v : float) (d : SwiftDataset) : SwiftDataset :=
  mkSwiftDataset (filename d) (parameter_filename d) (length_unit d)
    (mass_unit d) (time_unit d) (temperature_unit d) (domain_right_edge d)
    (domain_left_edge d) (dimensionality d) (_periodicity d) (current_time
    d) (cosmological_simulation d) v (omega_lambda d) (omega_matter d)
    (hubble_constant d) (parameters d) (file_count d) (filename_template
    d).

Definition set_omega_lambda (v : float) (d : SwiftDataset) : SwiftDataset :=
  mkSwiftDataset (filename d) (parameter_filename d) (length_unit d)
    (mass_unit d) (time_unit d) (temperature_unit d) (domain_right_edge d)
    (domain_left_edge d) (dimensionality d) (_periodicity d) (current_time
    d) (cosmological_simulation d) (current_redshift d) v (omega_matter d)
    (hubble_constant d) (parameters d) (file_count d) (filename_template
    d).

Definition set_omega_matter (v : float) (d : SwiftDataset) : SwiftDataset :=
  mkSwiftDataset (filename d) (parameter_filename d) (length_unit d)
    (mass_unit d) (time_unit d) (temperature_unit d) (domain_right_edge d)
    (domain_left_edge d) (dimensionality d) (_periodicity d) (current_time
    d) (cosmological_simulation d) (current_redshift d) (omega_lambda d) v
    (hubble_constant d) (parameters d) (file_count d) (filename_template
    d).

Definition set_hubble_constant (v : float) (d : SwiftDataset) : SwiftDataset :=
  mkSwiftDataset (filename d) (parameter_filename d) (length_unit d)
    (mass_unit d) (time_unit d) (temperature_unit d) (domain_right_edge d)
    (domain_left_edge d) (dimensionality d) (_periodicity d) (current_time
    d) (cosmological_simulation d) (current_redshift d) (omega_lambda d)
    (omega_matter d) v (parameters d) (file_count d) (filename_template d).

Definition set_parameters (v : gmap string (gmap string attr)) (d : SwiftDataset) : SwiftDataset :=
  mkSwiftDataset (filename d) (parameter_filename d) (length_unit d)
    (mass_unit d) (time_unit d) (temperature_unit d) (domain_right_edge d)
    (domain_left_edge d) (dimensionality d) (_periodicity d) (current_time
    d) (cosmological_simulation d) (current_redshift d) (omega_lambda d)
    (omega_matter d) (hubble_constant d) v (file_count d)
    (filename_template d).

Definition set_file_count (v : Z) (d : SwiftDataset) : SwiftDataset :=
  mkSwiftDataset (filename d) (parameter_filename d) (length_unit d)
    (mass_unit d) (time_unit d) (temperature_unit d) (domain_right_edge d)
    (domain_left_edge d) (dimensionality d) (_periodicity d) (current_time
    d) (cosmological_simulation d) (current_redshift d) (omega_lambda d)
    (omega_matter d) (hubble_constant d) (parameters d) v
    (filename_template d).

Definition set_filename_template (v : string) (d : SwiftDataset) : SwiftDataset :=
  mkSwiftDataset (filename d) (parameter_filename d) (length_unit d)
    (mass_unit d) (time_unit d) (temperature_unit d) (domain_right_edge d)
    (domain_left_edge d) (dimensionality d) (_periodicity d) (current_time
    d) (cosmological_simulation d) (current_redshift d) (omega_lambda d)
    (omega_matter d) (hubble_constant d) (parameters d) (file_count d) v.

(** ** Methods: state and exceptions

    A method body runs on the descriptor and the log; it returns a value or
    raises, and the assignments made before a [raise] stay. *)
Definition state : Type := (SwiftDataset * logbook)%type.

Definition Py (A : Type) : Type := state → result A * state.

#[global] Instance Py_ret : MRet Py := λ A a s, (inr a, s).
#[global] Instance Py_bind : MBind Py := λ A B k m s,
  match m s with
  | (inl e, s') => (inl e, s')
  | (inr a, s') => k a s'
  end.

(** Evaluate an expression that does not touch [self]. *)
Definition lift {A : Type} (r : result A) : Py A := λ s, (r, s).

(** [self.field] *)
Definition gets {A : Type} (field : SwiftDataset → A) : Py A :=
  λ s, (inr (field s.1), s).

(** [self.field = v] *)
Definition assign (setter : SwiftDataset → SwiftDataset) : Py unit :=
  λ s, (inr tt, (setter s.1, s.2)).

(** [try: body except classes: handler] *)
Definition try_except {A : Type} (body : Py A) (classes : list exn)
    (handler : Py A) : Py A := λ s,
  match body s with
  | (inl e, s') => if catches classes e then handler s' else (inl e, s')
  | (inr a, s') => (inr a, s')
  end.

Definition mylog_warning (msg : string) : Py unit :=
  λ s, (inr tt, (s.1, (s.2 ++ [(WARNING, msg)])%list)).

Definition mylog_info (msg : string) : Py unit :=
  λ s, (inr tt, (s.1, (s.2 ++ [(INFO, msg)])%list)).

(** Modelled from the spec: [only_on_root(func, msg)] calls [func] on the
    coordinating process and does nothing elsewhere. *)
Definition only_on_root (func : string → Py unit) (msg : string) : Py unit :=
  if is_root then func msg else mret tt.

(** ** The methods of [SwiftDataset] *)

(** [_get_info_attributes(dataset)]: the attributes of one top-level object,
    read through a handle that is opened and closed in the call. *)
Definition _get_info_attributes (dataset : string) : Py attrs :=
  filename ← gets filename;
  handle ← lift (h5py_File filename);
  header ← lift (getitem handle dataset);
  mret header.

Definition _set_code_unit_attributes : Py unit :=
  units ← _get_info_attributes "Units";
  cosmological ← gets cosmological_simulation;
  (if cosmological =? 1 then
     only_on_root mylog_info
       "Assuming length units are in comoving centimetres";;
     u_l ← lift (float_item units "Unit length in cgs (U_L)");
     assign (set_length_unit (quan u_l "cmcm"))
   else
     only_on_root mylog_info
       "Assuming length units are in physical centimetres";;
     u_l ← lift (float_item units "Unit length in cgs (U_L)");
     assign (set_length_unit (quan u_l "cm")));;
  u_m ← lift (float_item units "Unit mass in cgs (U_M)");
  assign (set_mass_unit (quan u_m "g"));;
  u_t ← lift (float_item units "Unit time in cgs (U_t)");
  assign (set_time_unit (quan u_t "s"));;
  u_temp ← lift (float_item units "Unit temperature in cgs (U_T)");
  assign (set_temperature_unit (quan u_temp "K")).

Definition cosmology_warning : string :=
  "Could not find cosmology information in Parameters, " +:+
  "despite having ran with -c signifying a cosmological " +:+
  "run.".

Definition _parse_parameter_file : Py unit :=
  header ← _get_info_attributes "Header";
  filename ← gets filename;
  handle ← lift (h5py_File filename);
  let has_runtime_pars := contains handle "RuntimePars" in
  runtime_parameters ←
    (if has_runtime_pars then _get_info_attributes "RuntimePars"
     else mret ∅);
  policy ← _get_info_attributes "Policy";
  parameters ← _get_info_attributes "Parameters";
  hydro ← _get_info_attributes "HydroScheme";
  subgrid ← _get_info_attributes "SubgridScheme";
  box ← lift (getitem header "BoxSize");
  assign (set_domain_right_edge box);;
  right_edge ← gets domain_right_edge;
  assign (set_domain_left_edge (zeros_like right_edge));;
  dimension ← lift (int_item header "Dimension");
  assign (set_dimensionality dimension);;
  periodic ←
    (if has_runtime_pars
     then lift (int_item runtime_parameters "PeriodicBoundariesOn")
     else lift (int_item parameters "InitialConditions:periodic"));
  (if negb (periodic =? 0) then
     dimensionality ← gets dimensionality;
     repeated ← lift (list_mul true dimensionality);
     assign (set_periodicity repeated)
   else
     dimensionality ← gets dimensionality;
     repeated ← lift (list_mul false dimensionality);
     assign (set_periodicity repeated));;
  time ← lift (float_item header "Time");
  assign (set_current_time time);;
  cosmological ← lift (int_item policy "cosmological integration");
  assign (set_cosmological_simulation cosmological);;
  cosmological ← gets cosmological_simulation;
  (if negb (cosmological =? 0) then
     try_except
       (redshift ← lift (float_item header "Redshift");
        assign (set_current_redshift redshift);;
        omega_l ← lift (float_item parameters "Cosmology:Omega_lambda");
        assign (set_omega_lambda omega_l);;
        (if contains parameters "Cosmology:Omega_cdm" then
           omega_b ← lift (float_item parameters "Cosmology:Omega_b");
           omega_cdm ← lift (float_item parameters "Cosmology:Omega_cdm");
           assign (set_omega_matter (omega_b + omega_cdm)%float)
         else
           omega_m ← lift (float_item parameters "Cosmology:Omega_m");
           assign (set_omega_matter omega_m));;
        little_h ← lift (float_item parameters "Cosmology:h");
        assign (set_hubble_constant little_h))
       [KeyError]
       (mylog_warning cosmology_warning;;
        mylog_info "Setting up as a non-cosmological run. Check this!";;
        assign (set_cosmological_simulation 0);;
        assign (set_current_redshift 0%float);;
        assign (set_omega_lambda 0%float);;
        assign (set_omega_matter 0%float);;
        assign (set_hubble_constant 0%float))
   else
     assign (set_current_redshift 0%float);;
     assign (set_omega_lambda 0%float);;
     assign (set_omega_matter 0%float);;
     assign (set_hubble_constant 0%float));;
  assign (set_parameters
            (<["header" := header]>
             (<["policy" := policy]>
              (<["parameters" := parameters]>
               (<["runtime_parameters" := runtime_parameters]>
                (<["hydro" := hydro]>
                 (<["subgrid" := subgrid]> ∅)))))));;
  assign (set_file_count 1);;
  template ← gets parameter_filename;
  assign (set_filename_template template).

(** [_is_valid(filename)]: a class method, it does not touch a descriptor. *)
Definition _is_valid (filename : string) : result bool :=
  if missing_load_requirements then mret false
  else
    let valid := true in
    valid ←
      try_result
        (handle ← h5py_File filename;
         header ← getitem handle "Header";
         code ← getitem header "Code";
         tag ← decode_utf8 code;
         mret (String.eqb tag "SWIFT"))
        [OSError; KeyError]
        (mret false);
    mret valid.

End Swift.

Arguments SwiftDataset : clear implicits.
Arguments state : clear implicits.
Arguments Py : clear implicits.

(** ** What a snapshot has to hold

    The file-side vocabulary of the properties below: which attributes
    [_parse_parameter_file] looks up, in terms of the opened container. *)

Section Snapshot.

Context {attr : Type}.
Variable py_float : attr → result float.
Variable py_int : attr → result Z.

(** [runtime_parameters]: the attributes of RuntimePars, or [{}] for a
    snapshot written without that group. *)
Definition runtime_parameters_of (handle : gmap string (gmap string attr))
    : gmap string attr :=
  default ∅ (handle !! "RuntimePars").

(** The integer periodicity flag and the place it is read from. *)
Definition periodic_flag (handle : gmap string (gmap string attr))
    (parameters : gmap string attr) : result Z :=
  match handle !! "RuntimePars" with
  | Some runtime_parameters =>
      int_item py_int runtime_parameters "PeriodicBoundariesOn"
  | None => int_item py_int parameters "InitialConditions:periodic"
  end.

(** The metadata read outside the cosmology block: the six groups and the
    geometry, time and policy attributes, with their converted values. *)
Record core_metadata (handle : gmap string (gmap string attr))
    (header policy parameters hydro subgrid : gmap string attr)
    (box : attr) (dimension periodic : Z) (time : float) (flag : Z) : Prop := {
  core_header : handle !! "Header" = Some header;
  core_policy : handle !! "Policy" = Some policy;
  core_parameters : handle !! "Parameters" = Some parameters;
  core_hydro : handle !! "HydroScheme" = Some hydro;
  core_subgrid : handle !! "SubgridScheme" = Some subgrid;
  core_box : header !! "BoxSize" = Some box;
  core_dimension : int_item py_int header "Dimension" = inr dimension;
  core_periodic : periodic_flag handle parameters = inr periodic;
  core_time : float_item py_float header "Time" = inr time;
  core_flag : int_item py_int policy "cosmological integration" = inr flag
}.

(** The keys of Parameters the cosmology block looks up: the split matter
    keys when Cosmology:Omega_cdm is there, the combined key otherwise. *)
Definition expected_cosmology_keys (parameters : gmap string attr)
    : list string :=
  ["Cosmology:Omega_lambda"] ++
  (if contains parameters "Cosmology:Omega_cdm"
   then ["Cosmology:Omega_b"; "Cosmology:Omega_cdm"]
   else ["Cosmology:Omega_m"]) ++
  ["Cosmology:h"].

(** Omega_matter as the two schemas give it. *)
Definition omega_matter_of (parameters : gmap string attr) : result float :=
  if contains parameters "Cosmology:Omega_cdm" then
    omega_b ← float_item py_float parameters "Cosmology:Omega_b";
    omega_cdm ← float_item py_float parameters "Cosmology:Omega_cdm";
    mret (omega_b + omega_cdm)%float
  else float_item py_float parameters "Cosmology:Omega_m".

(** What the cosmology block reads, in the order it reads it: the redshift
    from Header, the three others from Parameters. *)
Definition cosmology_reads (header parameters : gmap string attr)
    : result (float * float * float * float) :=
  redshift ← float_item py_float header "Redshift";
  omega_l ← float_item py_float parameters "Cosmology:Omega_lambda";
  omega_m ← omega_matter_of parameters;
  little_h ← float_item py_float parameters "Cosmology:h";
  mret (redshift, omega_l, omega_m, little_h).

(** Every value stored under [keys] is one that [float] converts. *)
Definition numeric_at (d : gmap string attr) (keys : list string) : Prop :=
  ∀ k v, k ∈ keys → d !! k = Some v → ∃ x, py_float v = inr x.

(** The two records of the cosmology fallback. *)
Definition fallback_records : logbook :=
  [(WARNING, cosmology_warning);
   (INFO, "Setting up as a non-cosmological run. Check this!")].

(** The raw dictionaries as [self.parameters] keeps them. *)
Definition raw_parameters
    (header policy parameters runtime_parameters hydro subgrid : gmap string attr)
    : gmap string (gmap string attr) :=
  <["header" := header]>
    (<["policy" := policy]>
     (<["parameters" := parameters]>
      (<["runtime_parameters" := runtime_parameters]>
       (<["hydro" := hydro]>
        (<["subgrid" := subgrid]> ∅))))).

(** "All four cosmology quantities are read from the Parameters group",
    as a statement on the parser: two snapshots that carry the same
    Parameters group and are both parsed as cosmological get the same four
    scalars. *)
Definition cosmology_from_Parameters_alone (zeros_like : attr → attr)
    (fs : string → option (gmap string (gmap string attr)))
    (maxsize list_capacity : Z) : Prop :=
  ∀ d1 d2 l d1' l1' d2' l2',
    _parse_parameter_file py_float py_int zeros_like fs maxsize list_capacity
      (d1, l) = (inr tt, (d1', l1')) →
    _parse_parameter_file py_float py_int zeros_like fs maxsize list_capacity
      (d2, l) = (inr tt, (d2', l2')) →
    cosmological_simulation d1' ≠ 0 →
    cosmological_simulation d2' ≠ 0 →
    fs (filename d1) ≫= (.!! "Parameters")
      = fs (filename d2) ≫= (.!! "Parameters") →
    current_redshift d1' = current_redshift d2' ∧
    omega_lambda d1' = omega_lambda d2' ∧
    omega_matter d1' = omega_matter d2' ∧
    hubble_constant d1' = hubble_constant d2'.

End Snapshot.

(** ** Sample snapshots

    Two small universes of attribute values with the conversions Python and
    NumPy apply to them, and a few snapshot files built from them. *)

(** Numeric attributes as one-dimensional float64 arrays. *)
Module NumericSample.

Definition ndarray : Type := list float.

(** [float(a)]: defined on arrays of exactly one element. *)
Definition array_float (a : ndarray) : result float :=
  match a with
  | [x] => inr x
  | _ => raise TypeError
  end.

(** [int(x)] on a float: truncation towards zero; NaN and the infinities
    are refused. *)
Definition truncate (x : float) : result Z :=
  match Prim2SF x with
  | S754_zero _ => inr 0
  | S754_finite negative m e =>
      let whole :=
        if 0 <=? e then Z.pos m * 2 ^ e else Z.pos m `quot` 2 ^ (- e) in
      inr (if negative then - whole else whole)
  | S754_infinity _ => raise OverflowError
  | S754_nan => raise ValueError
  end.

Definition array_int (a : ndarray) : result Z :=
  match a with
  | [x] => truncate x
  | _ => raise TypeError
  end.

Definition array_zeros_like (a : ndarray) : ndarray :=
  (λ _, 0%float) <$> a.

(** A 64-bit interpreter, with the memory for a list of 2^30 items. *)
Definition maxsize : Z := 2 ^ 63 - 1.
Definition list_capacity : Z := 2 ^ 30.

#[local] Set Warnings "-inexact-float".

Definition header_z1 : gmap string ndarray :=
  <["BoxSize" := [100; 100; 100]%float]>
    (<["Dimension" := [3%float]]>
     (<["Time" := [0.5%float]]>
      (<["Redshift" := [1%float]]> ∅))).

Definition header_z2 : gmap string ndarray :=
  <["Redshift" := [2%float]]> header_z1.

Definition header_no_redshift : gmap string ndarray :=
  delete "Redshift" header_z1.

Definition policy_cosmological : gmap string ndarray :=
  {["cosmological integration" := [1%float]]}.

Definition policy_plain : gmap string ndarray :=
  {["cosmological integration" := [0%float]]}.

(** Parameters with the split matter keys. *)
Definition parameters_split : gmap string ndarray :=
  <["InitialConditions:periodic" := [1%float]]>
    (<["Cosmology:Omega_lambda" := [0.75%float]]>
     (<["Cosmology:Omega_b" := [0.0625%float]]>
      (<["Cosmology:Omega_cdm" := [0.1875%float]]>
       (<["Cosmology:h" := [0.5%float]]> ∅)))).

(** Parameters with the combined matter key. *)
Definition parameters_combined : gmap string ndarray :=
  <["InitialConditions:periodic" := [1%float]]>
    (<["Cosmology:Omega_lambda" := [0.75%float]]>
     (<["Cosmology:Omega_m" := [0.25%float]]>
      (<["Cosmology:h" := [0.5%float]]> ∅))).

Definition parameters_no_lambda : gmap string ndarray :=
  delete "Cosmology:Omega_lambda" parameters_split.

Definition U_L : float := 3.0857e24.
Definition U_M : float := 1.989e33.
Definition U_t : float := 3.156e16.
Definition U_T : float := 1.

Definition units_group : gmap string ndarray :=
  <["Unit length in cgs (U_L)" := [U_L]]>
    (<["Unit mass in cgs (U_M)" := [U_M]]>
     (<["Unit time in cgs (U_t)" := [U_t]]>
      (<["Unit temperature in cgs (U_T)" := [U_T]]> ∅))).

Definition snapshot (header policy parameters : gmap string ndarray)
    : gmap string (gmap string ndarray) :=
  <["Header" := header]>
    (<["Policy" := policy]>
     (<["Parameters" := parameters]>
      (<["Units" := units_group]>
       (<["HydroScheme" := ∅]>
        (<["SubgridScheme" := ∅]> ∅))))).

(** A snapshot of the older layout, with the RuntimePars group. *)
Definition snapshot_with_runtime_pars : gmap string (gmap string ndarray) :=
  <["RuntimePars" := {["PeriodicBoundariesOn" := [0%float]]}]>
    (snapshot header_z1 policy_cosmological parameters_combined).

Definition files : gmap string (gmap string (gmap string ndarray)) :=
  <["split.hdf5" := snapshot header_z1 policy_cosmological parameters_split]>
    (<["split_z2.hdf5" :=
         snapshot header_z2 policy_cosmological parameters_split]>
     (<["old.hdf5" := snapshot_with_runtime_pars]>
      (<["no_lambda.hdf5" :=
           snapshot header_z1 policy_cosmological parameters_no_lambda]>
       (<["no_redshift.hdf5" :=
            snapshot header_no_redshift policy_cosmological parameters_split]>
        (<["plain.hdf5" :=
             snapshot header_z1 policy_plain parameters_no_lambda]> ∅))))).

Definition fs (path : string) : option (gmap string (gmap string ndarray)) :=
  files !! path.

(** A descriptor as it is before parsing: the paths are set, the rest is
    still to be filled in. *)
Definition fresh (path : string) : SwiftDataset ndarray :=
  let unset := quan 0 EmptyString in
  mkSwiftDataset path path unset unset unset unset [] [] 0 [] 0 0 0 0 0 0 ∅ 0
    EmptyString.

Definition parse (path : string) : result unit * state ndarray :=
  _parse_parameter_file array_float array_int array_zeros_like fs maxsize
    list_capacity (fresh path, []).

(** The descriptor and the log after parsing. *)
Definition parsed (path : string) : SwiftDataset ndarray := (parse path).2.1.
Definition logged (path : string) : logbook := (parse path).2.2.

End NumericSample.

(** String attributes: fixed-length ones come back as byte strings,
    variable-length ones as [str]. A [str] is kept as its UTF-8 encoding. *)
Module TextSample.

Inductive text : Type :=
| FixedString (bytes : string)
| VlenString (s : string).

Definition continuation (b : N) : bool := ((0x80 <=? b) && (b <=? 0xBF))%N.

(** Well-formed UTF-8: shortest forms only, no surrogates, at most
    U+10FFFF. *)
Fixpoint utf8_valid (bs : list N) : bool :=
  match bs with
  | [] => true
  | b0 :: r0 =>
      if (b0 <=? 0x7F)%N then utf8_valid r0
      else if ((0xC2 <=? b0) && (b0 <=? 0xDF))%N then
        match r0 with
        | b1 :: r1 => continuation b1 && utf8_valid r1
        | _ => false
        end
      else if ((0xE0 <=? b0) && (b0 <=? 0xEF))%N then
        match r0 with
        | b1 :: b2 :: r2 =>
            (if (b0 =? 0xE0)%N then (0xA0 <=? b1) && (b1 <=? 0xBF)
             else if (b0 =? 0xED)%N then (0x80 <=? b1) && (b1 <=? 0x9F)
             else continuation b1)%N
            && continuation b2 && utf8_valid r2
        | _ => false
        end
      else if ((0xF0 <=? b0) && (b0 <=? 0xF4))%N then
        match r0 with
        | b1 :: b2 :: b3 :: r3 =>
            (if (b0 =? 0xF0)%N then (0x90 <=? b1) && (b1 <=? 0xBF)
             else if (b0 =? 0xF4)%N then (0x80 <=? b1) && (b1 <=? 0x8F)
             else continuation b1)%N
            && continuation b2 && continuation b3 && utf8_valid r3
        | _ => false
        end
      else false
  end.

Definition byte_values (s : string) : list N :=
  Ascii.N_of_ascii <$> String.list_ascii_of_string s.

(** [x.decode("utf-8")]: only byte strings have the method. *)
Definition decode (x : text) : result string :=
  match x with
  | FixedString bytes =>
      if utf8_valid (byte_values bytes) then inr bytes
      else raise UnicodeDecodeError
  | VlenString _ => raise AttributeError
  end.

Definition with_code (code : text) : gmap string (gmap string text) :=
  {["Header" := {["Code" := code]}]}.

Definition files : gmap string (gmap string (gmap string text)) :=
  <["swift.hdf5" := with_code (FixedString "SWIFT")]>
    (<["gadget.hdf5" := with_code (FixedString "GADGET")]>
     (<["latin1.hdf5" := with_code (FixedString (String (Ascii.ascii_of_N 255) EmptyString))]>
      (<["vlen.hdf5" := with_code (VlenString "SWIFT")]>
       (<["untagged.hdf5" := {["Header" := ∅]}]> ∅)))).

Definition fs (path : string) : option (gmap string (gmap string text)) :=
  files !! path.

End TextSample.

(** ** What the methods leave alone *)

Section Frames.

Context {attr : Type}.

(** The fields [_parse_parameter_file] does not assign: the two paths and
    the four units. *)
Definition same_paths_and_units (d d' : SwiftDataset attr) : Prop :=
  filename d' = filename d ∧
  parameter_filename d' = parameter_filename d ∧
  length_unit d' = length_unit d ∧
  mass_unit d' = mass_unit d ∧
  time_unit d' = time_unit d ∧
  temperature_unit d' = temperature_unit d.

(** The fields [_set_code_unit_attributes] does not assign: all but the
    four units. *)
Definition same_but_units (d d' : SwiftDataset attr) : Prop :=
  filename d' = filename d ∧
  parameter_filename d' = parameter_filename d ∧
  domain_right_edge d' = domain_right_edge d ∧
  domain_left_edge d' = domain_left_edge d ∧
  dimensionality d' = dimensionality d ∧
  _periodicity d' = _periodicity d ∧
  current_time d' = current_time d ∧
  cosmological_simulation d' = cosmological_simulation d ∧
  current_redshift d' = current_redshift d ∧
  omega_lambda d' = omega_lambda d ∧
  omega_matter d' = omega_matter d ∧
  hubble_constant d' = hubble_constant d ∧
  parameters d' = parameters d ∧
  file_count d' = file_count d ∧
  filename_template d' = filename_template d.

(** A method body that, however it ends, leaves the descriptor related to
    the one it started from and only appends to the log. *)
Definition keeps {A : Type}
    (R : SwiftDataset attr → SwiftDataset attr → Prop) (m : Py attr A)
    : Prop :=
  ∀ d l r d' l', m (d, l) = (r, (d', l')) → R d d' ∧ l `prefix_of` l'.

(** The unit symbol and the message [_set_code_unit_attributes] picks for
    the length, by the cosmological flag. *)
Definition length_symbol (cosmological : Z) : string :=
  if cosmological =? 1 then "cmcm" else "cm".

Definition length_message (cosmological : Z) : string :=
  if cosmological =? 1
  then "Assuming length units are in comoving centimetres"
  else "Assuming length units are in physical centimetres".

(** What it logs: one record on the coordinating process, none elsewhere. *)
Definition units_records (is_root : bool) (cosmological : Z) : logbook :=
  if is_root then [(INFO, length_message cosmological)] else [].

(** The descriptor with the four units assigned. *)
Definition with_units (u_l u_m u_t u_temp : float) (d : SwiftDataset attr)
    : SwiftDataset attr :=
  set_temperature_unit (quan u_temp "K")
    (set_time_unit (quan u_t "s")
       (set_mass_unit (quan u_m "g")
          (set_length_unit
             (quan u_l (length_symbol (cosmological_simulation d))) d))).

(** What a file stores under Header "Code", when it opens and has it. *)
Definition code_attribute (fs : string → option (gmap string (gmap string attr)))
    (path : string) : option attr :=
  handle ← fs path; header ← handle !! "Header"; header !! "Code".

End Frames.

(** Snapshots with something missing or misshapen, over the float64 arrays
    of [NumericSample]. *)
Module EdgeSample.

Import NumericSample.

Definition whole : gmap string (gmap string ndarray) :=
  snapshot header_z1 policy_cosmological parameters_split.

(** Omega_lambda stored as a two-element array, which [float] refuses. *)
Definition parameters_pair_lambda : gmap string ndarray :=
  <["Cosmology:Omega_lambda" := [0.75; 0.25]%float]> parameters_split.

Definition policy_two : gmap string ndarray :=
  {["cosmological integration" := [2%float]]}.

Definition files : gmap string (gmap string (gmap string ndarray)) :=
  <["whole.hdf5" := whole]>
    (<["no_box.hdf5" :=
         snapshot (delete "BoxSize" header_z1) policy_cosmological
           parameters_split]>
     (<["no_dimension.hdf5" :=
          snapshot (delete "Dimension" header_z1) policy_cosmological
            parameters_split]>
      (<["no_hydro.hdf5" := delete "HydroScheme" whole]>
       (<["pair_lambda.hdf5" :=
            snapshot header_z1 policy_cosmological parameters_pair_lambda]>
        (<["flag_two.hdf5" := snapshot header_z1 policy_two parameters_split]>
         (<["no_redshift.hdf5" :=
              snapshot header_no_redshift policy_cosmological
                parameters_split]>
          (<["huge_dimension.hdf5" :=
               snapshot (<["Dimension" := [1e19%float]]> header_z1)
                 policy_cosmological parameters_split]>
           (<["no_units.hdf5" := delete "Units" whole]>
            (<["no_mass.hdf5" :=
                 <["Units" := delete "Unit mass in cgs (U_M)" units_group]>
                   whole]>
             (<["no_length.hdf5" :=
                  <["Units" :=
                      delete "Unit length in cgs (U_L)" units_group]>
                    whole]> ∅)))))))))).

Definition fs (path : string) : option (gmap string (gmap string ndarray)) :=
  files !! path.

Definition parse (path : string) : result unit * state ndarray :=
  _parse_parameter_file array_float array_int array_zeros_like fs maxsize
    list_capacity (fresh path, []).

Definition set_units (root : bool) (d : SwiftDataset ndarray)
    : result unit * state ndarray :=
  _set_code_unit_attributes array_float fs root (d, []).

(** A descriptor parsed as cosmological, before its units are resolved. *)
Definition comoving (path : string) : SwiftDataset ndarray :=
  set_cosmological_simulation 1 (fresh path).

End EdgeSample.

(** ** Running methods, one statement at a time *)

Section Properties.

Context {attr : Type}.
Variable py_float : attr → result float.
Variable py_int : attr → result Z.
Variable zeros_like : attr → attr.
Variable fs : string → option (gmap string (gmap string attr)).
Variable maxsize : Z.
Variable list_capacity : Z.
Variable is_root : bool.

Local Abbreviation parse :=
  (_parse_parameter_file py_float py_int zeros_like fs maxsize list_capacity).
Local Abbreviation Py := (Py attr).

Lemma run_gets {A B : Type} (field : SwiftDataset attr → A) (k : A → Py B) s :
  (gets field ≫= k) s = k (field s.1) s.
Proof. reflexivity. Qed.

Lemma run_assign {B : Type} (setter : SwiftDataset attr → SwiftDataset attr)
    (k : unit → Py B) s :
  (assign setter ≫= k) s = k tt (setter s.1, s.2).
Proof. reflexivity. Qed.

Lemma run_lift {A B : Type} (r : result A) (k : A → Py B) s :
  (lift r ≫= k) s = match r with inl e => (inl e, s) | inr a => k a s end.
Proof. by destruct r. Qed.

Lemma run_ret {A B : Type} (a : A) (k : A → Py B) s :
  (mret a ≫= k) s = k a s.
Proof. reflexivity. Qed.

Lemma run_get_info {B : Type} (dataset : string) (k : gmap string attr → Py B) s :
  (_get_info_attributes fs dataset ≫= k) s =
  match fs (filename s.1) with
  | None => (inl OSError, s)
  | Some handle =>
      match handle !! dataset with
      | None => (inl KeyError, s)
      | Some a => k a s
      end
  end.
Proof.
  unfold _get_info_attributes, h5py_File, getitem.
  cbv [mbind Py_bind gets lift mret Py_ret].
  destruct (fs (filename s.1)) as [handle|]; [|done].
  by destruct (handle !! dataset).
Qed.

Lemma run_try_except {A B : Type} (body handler : Py A) classes
    (k : A → Py B) s :
  (try_except body classes handler ≫= k) s =
  match body s with
  | (inl e, s') =>
      if catches classes e then (handler ≫= k) s' else (inl e, s')
  | (inr a, s') => k a s'
  end.
Proof.
  cbv [mbind Py_bind try_except].
  destruct (body s) as [[e|a] s']; [|done]. by destruct (catches classes e).
Qed.

Lemma run_assoc {A B C : Type} (m : Py A) (f : A → Py B)
    (k : B → Py C) s :
  ((m ≫= f) ≫= k) s = (m ≫= λ a, f a ≫= k) s.
Proof.
  cbv [mbind Py_bind]. by destruct (m s) as [[e|a] s'].
Qed.

Lemma run_if_repeat {B : Type} (b : bool) (k : unit → Py B) s :
  ((if b then
      n ← gets dimensionality;
      repeated ← lift (list_mul maxsize list_capacity true n);
      assign (set_periodicity repeated)
    else
      n ← gets dimensionality;
      repeated ← lift (list_mul maxsize list_capacity false n);
      assign (set_periodicity repeated)) ≫= k) s =
  match list_mul maxsize list_capacity b (dimensionality s.1) with
  | inl e => (inl e, s)
  | inr repeated => k tt (set_periodicity repeated s.1, s.2)
  end.
Proof.
  destruct b; cbv [mbind Py_bind gets lift assign];
    by destruct (list_mul _ _ _ (dimensionality s.1)).
Qed.

(** The counts list repetition accepts. *)
Lemma list_mul_inr {A : Type} (x : A) n :
  - maxsize - 1 ≤ n ≤ maxsize → n ≤ list_capacity →
  list_mul maxsize list_capacity x n = inr (replicate (Z.to_nat n) x).
Proof.
  intros [Hlow Hhigh] Hroom. unfold list_mul.
  destruct (Z.ltb_spec n (- maxsize - 1)); [lia|].
  destruct (Z.ltb_spec maxsize n); [lia|].
  destruct (Z.ltb_spec list_capacity n); [lia|]. reflexivity.
Qed.

Lemma list_mul_inr_inv {A : Type} (x : A) n repeated :
  list_mul maxsize list_capacity x n = inr repeated →
  - maxsize - 1 ≤ n ≤ maxsize ∧ n ≤ list_capacity ∧
  repeated = replicate (Z.to_nat n) x.
Proof.
  unfold list_mul.
  destruct (Z.ltb_spec n (- maxsize - 1)); [done|].
  destruct (Z.ltb_spec maxsize n); [done|].
  destruct (Z.ltb_spec list_capacity n); [done|].
  intros [= <-]. repeat split; lia.
Qed.

(** The counts it refuses, and how. *)
Lemma list_mul_inl {A : Type} (x : A) n e :
  list_mul maxsize list_capacity x n = inl e ↔
  (e = OverflowError ∧ (n < - maxsize - 1 ∨ maxsize < n)) ∨
  (e = MemoryError ∧ - maxsize - 1 ≤ n ≤ maxsize ∧ list_capacity < n).
Proof.
  unfold list_mul.
  destruct (Z.ltb_spec n (- maxsize - 1));
    destruct (Z.ltb_spec maxsize n);
    destruct (Z.ltb_spec list_capacity n); cbn; split;
    first [ intros [= <-] | intros [[-> ?]|[-> ?]] ];
    first [ done | lia | left; split; [done|lia] | right; split; [done|lia] ].
Qed.

Lemma run_last_assign (setter : SwiftDataset attr → SwiftDataset attr) s :
  assign setter s = (inr tt, (setter s.1, s.2)).
Proof. reflexivity. Qed.

Lemma run_log_warning {B : Type} msg (k : unit → Py B) s :
  (mylog_warning msg ≫= k) s = k tt (s.1, (s.2 ++ [(WARNING, msg)])%list).
Proof. reflexivity. Qed.

Lemma run_log_info {B : Type} msg (k : unit → Py B) s :
  (mylog_info msg ≫= k) s = k tt (s.1, (s.2 ++ [(INFO, msg)])%list).
Proof. reflexivity. Qed.

Lemma run_if {A B : Type} (b : bool) (m1 m2 : Py A) (k : A → Py B) s :
  ((if b then m1 else m2) ≫= k) s = if b then (m1 ≫= k) s else (m2 ≫= k) s.
Proof. by destruct b. Qed.

Lemma contains_lookup {V : Type} (d : gmap string V) k :
  contains d k = match d !! k with Some _ => true | None => false end.
Proof.
  unfold contains. destruct (d !! k) eqn:E.
  - apply bool_decide_eq_true. eauto.
  - apply bool_decide_eq_false. intros [? ?]. congruence.
Qed.

Lemma getitem_inr {V : Type} (d : gmap string V) k v :
  getitem d k = inr v ↔ d !! k = Some v.
Proof. unfold getitem. destruct (d !! k); split; intros; simplify_eq; done. Qed.

Lemma h5py_File_ok path handle :
  fs path = Some handle → h5py_File fs path = inr handle.
Proof. unfold h5py_File. by intros ->. Qed.

(** Reading a field of an updated descriptor. *)
Ltac simpl_fields_in H :=
  cbn [filename parameter_filename length_unit mass_unit time_unit
       temperature_unit domain_right_edge domain_left_edge dimensionality
       _periodicity current_time cosmological_simulation current_redshift
       omega_lambda omega_matter hubble_constant parameters file_count
       filename_template
       set_length_unit set_mass_unit set_time_unit set_temperature_unit
       set_domain_right_edge set_domain_left_edge set_dimensionality
       set_periodicity set_current_time set_cosmological_simulation
       set_current_redshift set_omega_lambda set_omega_matter
       set_hubble_constant set_parameters set_file_count
       set_filename_template fst snd] in H.

Ltac simpl_fields :=
  cbn [filename parameter_filename length_unit mass_unit time_unit
       temperature_unit domain_right_edge domain_left_edge dimensionality
       _periodicity current_time cosmological_simulation current_redshift
       omega_lambda omega_matter hubble_constant parameters file_count
       filename_template
       set_length_unit set_mass_unit set_time_unit set_temperature_unit
       set_domain_right_edge set_domain_left_edge set_dimensionality
       set_periodicity set_current_time set_cosmological_simulation
       set_current_redshift set_omega_lambda set_omega_matter
       set_hubble_constant set_parameters set_file_count
       set_filename_template fst snd].

(** One statement of a method body, in a hypothesis. *)
Ltac run_in H :=
  first
    [ rewrite run_assoc in H
    | rewrite run_get_info in H
    | rewrite run_gets in H
    | rewrite run_assign in H
    | rewrite run_lift in H
    | rewrite run_ret in H
    | rewrite run_log_warning in H
    | rewrite run_log_info in H
    | rewrite run_if_repeat in H
    | rewrite run_if in H
    | rewrite run_last_assign in H ];
  cbv beta iota zeta in H; simpl_fields_in H.

(** The same to the end of the body, splitting on the outcome of every
    lookup and conversion that the context does not settle and dropping
    the branches that contradict the hypothesis. *)
Ltac run_cases H :=
  repeat
    (run_in H;
     repeat match type of H with
       | match ?r with _ => _ end = _ =>
           first
             [ match goal with E : r = _ |- _ => progress rewrite E in H end
             | let E := fresh "E" in destruct r eqn:E; try discriminate H ];
           cbv beta iota zeta in H
       end).

(** One statement of a method body, in the goal; the outcome of a lookup or
    conversion is taken from the context. *)
Ltac run :=
  repeat
    (first
       [ rewrite run_assoc
       | rewrite run_get_info
       | rewrite run_gets
       | rewrite run_assign
       | rewrite run_lift
       | rewrite run_ret
       | rewrite run_log_warning
       | rewrite run_log_info
       | rewrite run_if_repeat
       | rewrite run_if
       | rewrite run_try_except
       | rewrite run_last_assign
       | rewrite contains_lookup ];
     cbv beta iota zeta; simpl_fields;
     repeat match goal with
       | E : ?r = _ |- context [match ?r with _ => _ end] =>
           rewrite E; cbv beta iota zeta
       end).

Lemma float_item_inr (d : gmap string attr) k x :
  float_item py_float d k = inr x → ∃ v, d !! k = Some v ∧ py_float v = inr x.
Proof.
  unfold float_item, getitem. destruct (d !! k) as [v|]; [|done].
  intros Hx. by exists v.
Qed.

Lemma float_item_missing (d : gmap string attr) k :
  d !! k = None → float_item py_float d k = inl KeyError.
Proof. unfold float_item, getitem. by intros ->. Qed.

Lemma float_item_inl (d : gmap string attr) keys k e :
  numeric_at py_float d keys → k ∈ keys →
  float_item py_float d k = inl e → e = KeyError ∧ d !! k = None.
Proof.
  intros Hnum Hk. unfold float_item, getitem.
  destruct (d !! k) as [v|] eqn:Hv.
  - destruct (Hnum k v Hk Hv) as [x Hx]. cbn. by rewrite Hx.
  - cbn. by intros [= <-].
Qed.

(** The statements up to the cosmology block, in a hypothesis. *)
Ltac run_core_in H :=
  repeat
    (lazymatch type of H with
     | ((if _ then try_except _ _ _ else _) ≫= _) _ = _ => fail
     | _ => idtac
     end;
     run_in H;
     repeat match type of H with
       | match ?r with _ => _ end = _ =>
           first
             [ match goal with E : r = _ |- _ => progress rewrite E in H end
             | let E := fresh "E" in destruct r eqn:E; try discriminate H ];
           cbv beta iota zeta in H
       end).

(** A normal return of the parser: the snapshot holds the core metadata. *)
Lemma parse_ok_core d l d' l' :
  parse (d, l) = (inr tt, (d', l')) →
  ∃ handle header policy params hydro subgrid box dimension periodic
    time flag,
    fs (filename d) = Some handle ∧
    core_metadata py_float py_int handle header policy params hydro
      subgrid box dimension periodic time flag ∧
    - maxsize - 1 ≤ dimension ≤ maxsize ∧
    dimension ≤ list_capacity.
Proof.
  intros H. unfold _parse_parameter_file in H.
  run_in H.
  destruct (fs (filename d)) as [handle|] eqn:Hfs; [|done].
  destruct (handle !! "Header") as [header|] eqn:Hheader; [|done].
  pose proof (h5py_File_ok _ _ Hfs) as Hopen.
  pose proof (contains_lookup handle "RuntimePars") as Hhas.
  destruct (handle !! "RuntimePars") as [runtime|] eqn:Hruntime.
  all: run_core_in H.
  all: repeat match goal with
    | E : getitem _ _ = inr _ |- _ => apply getitem_inr in E
    end.
  all: match goal with
    | E : list_mul _ _ _ _ = inr _ |- _ =>
        apply list_mul_inr_inv in E as (Hindex & Hroom & _)
    end.
  all: do 11 eexists.
  all: split; [reflexivity|].
  all: split; [|split; [exact Hindex | exact Hroom]].
  all: constructor; try eassumption.
  all: unfold periodic_flag; rewrite Hruntime; eassumption.
Qed.

(** The parser on a snapshot that holds the core metadata: the geometry and
    time it stores, and the three ways the cosmology block can end. *)
Lemma parse_result d l handle header policy params hydro subgrid box
    dimension periodic time flag :
  fs (filename d) = Some handle →
  core_metadata py_float py_int handle header policy params hydro subgrid
    box dimension periodic time flag →
  - maxsize - 1 ≤ dimension ≤ maxsize →
  dimension ≤ list_capacity →
  ∃ r d' l',
    parse (d, l) = (r, (d', l')) ∧
    domain_right_edge d' = box ∧
    domain_left_edge d' = zeros_like box ∧
    dimensionality d' = dimension ∧
    _periodicity d' = replicate (Z.to_nat dimension) (negb (periodic =? 0)) ∧
    current_time d' = time ∧
    (r = inr tt →
     parameters d' =
       raw_parameters header policy params (runtime_parameters_of handle)
         hydro subgrid ∧
     file_count d' = 1 ∧
     filename_template d' = parameter_filename d) ∧
    (if flag =? 0 then
       r = inr tt ∧ l' = l ∧ cosmological_simulation d' = 0 ∧
       current_redshift d' = 0%float ∧ omega_lambda d' = 0%float ∧
       omega_matter d' = 0%float ∧ hubble_constant d' = 0%float
     else
       match cosmology_reads py_float header params with
       | inr (redshift, omega_l, omega_m, little_h) =>
           r = inr tt ∧ l' = l ∧ cosmological_simulation d' = flag ∧
           current_redshift d' = redshift ∧ omega_lambda d' = omega_l ∧
           omega_matter d' = omega_m ∧ hubble_constant d' = little_h
       | inl e =>
           if catches [KeyError] e then
             r = inr tt ∧ l' = (l ++ fallback_records)%list ∧
             cosmological_simulation d' = 0 ∧
             current_redshift d' = 0%float ∧ omega_lambda d' = 0%float ∧
             omega_matter d' = 0%float ∧ hubble_constant d' = 0%float
           else r = inl e
       end).
Proof.
  intros Hfs
    [Hheader Hpolicy Hparams Hhydro Hsubgrid Hbox Hdim Hperiodic Htime Hflag]
    Hindex Hroom.
  pose proof (list_mul_inr (negb (periodic =? 0)) dimension Hindex Hroom)
    as Hrepeat.
  apply getitem_inr in Hbox. unfold periodic_flag in Hperiodic.
  destruct (parse (d, l)) as [r [d' l']] eqn:H.
  exists r, d', l'. split; [reflexivity|].
  unfold _parse_parameter_file in H.
  unfold runtime_parameters_of.
  pose proof (h5py_File_ok _ _ Hfs) as Hopen.
  pose proof (contains_lookup handle "RuntimePars") as Hhas.
  destruct (handle !! "RuntimePars") as [runtime|] eqn:Hruntime.
  all: run_core_in H.
  all: rewrite run_if in H.
  all: destruct (flag =? 0) eqn:Hzero; cbn [negb] in H.
  all: try match type of H with
    | (try_except ?body _ _ ≫= _) ?s = _ =>
        let Hbody := fresh "Hbody" in
        rewrite run_try_except in H;
        destruct (body s) as [[e|[]] s2] eqn:Hbody;
        [ destruct (catches [KeyError] e) eqn:Hcatch | ];
        run_cases Hbody; simplify_eq
    end.
  all: run_cases H.
  all: simplify_eq.
  all: simpl_fields.
  all: do 5 (split; [reflexivity|]).
  all: split; [try done|].
  all: unfold cosmology_reads, omega_matter_of.
  all: repeat
    (match goal with
     | E : ?r = _ |- context [?r] => rewrite E
     end;
     cbn [mbind mret result_bind result_ret]).
  all: rewrite <- ?app_assoc; try apply Z.eqb_eq in Hzero.
  all: by repeat split.
Qed.

(** A normal return, with everything it fixes. *)
Lemma parse_ok_inv d l d' l' :
  parse (d, l) = (inr tt, (d', l')) →
  ∃ handle header policy params hydro subgrid box dimension periodic
    time flag,
    fs (filename d) = Some handle ∧
    core_metadata py_float py_int handle header policy params hydro
      subgrid box dimension periodic time flag ∧
    dimensionality d' = dimension ∧
    _periodicity d' = replicate (Z.to_nat dimension) (negb (periodic =? 0)) ∧
    parameters d' =
      raw_parameters header policy params (runtime_parameters_of handle)
        hydro subgrid ∧
    file_count d' = 1 ∧
    filename_template d' = parameter_filename d ∧
    ((cosmological_simulation d' = 0 ∧
      current_redshift d' = 0%float ∧ omega_lambda d' = 0%float ∧
      omega_matter d' = 0%float ∧ hubble_constant d' = 0%float) ∨
     (cosmological_simulation d' = flag ∧ flag ≠ 0 ∧
      cosmology_reads py_float header params =
        inr (current_redshift d', omega_lambda d', omega_matter d',
             hubble_constant d'))).
Proof.
  intros H.
  destruct (parse_ok_core _ _ _ _ H)
    as (handle & header & policy & params & hydro & subgrid & box &
        dimension & periodic & time & flag & Hfs & Hcore & Hindex & Hroom).
  destruct (parse_result d l _ _ _ _ _ _ _ _ _ _ _ Hfs Hcore Hindex
              Hroom)
    as (r & d2 & l2 & Hrun & _ & _ & Hdim & Hper & _ & Hraw & Hcosmo).
  rewrite H in Hrun. injection Hrun as <- <- <-.
  destruct (Hraw eq_refl) as (Hparams & Hcount & Htemplate).
  exists handle, header, policy, params, hydro, subgrid, box, dimension,
    periodic, time, flag.
  do 7 (split; [assumption|]).
  destruct (Z.eqb_spec flag 0) as [Hzero|Hset].
  - left. tauto.
  - destruct (cosmology_reads py_float header params)
      as [e|[[[redshift omega_l] omega_m] little_h]].
    + destruct (catches [KeyError] e); [left; tauto | discriminate Hcosmo].
    + right. destruct Hcosmo as (_ & _ & -> & -> & -> & -> & ->). done.
Qed.

Lemma cosmology_reads_inr header params redshift omega_l omega_m little_h :
  cosmology_reads py_float header params
    = inr (redshift, omega_l, omega_m, little_h) ↔
  float_item py_float header "Redshift" = inr redshift ∧
  float_item py_float params "Cosmology:Omega_lambda" = inr omega_l ∧
  omega_matter_of py_float params = inr omega_m ∧
  float_item py_float params "Cosmology:h" = inr little_h.
Proof.
  unfold cosmology_reads.
  destruct (float_item py_float header "Redshift"); cbn;
    [split; [done | by intros (? & _)]|].
  destruct (float_item py_float params "Cosmology:Omega_lambda"); cbn;
    [split; [done | by intros (_ & ? & _)]|].
  destruct (omega_matter_of py_float params); cbn;
    [split; [done | by intros (_ & _ & ? & _)]|].
  destruct (float_item py_float params "Cosmology:h"); cbn;
    [split; [done | by intros (_ & _ & _ & ?)]|].
  split.
  - by intros [= -> -> -> ->].
  - by intros ([= ->] & [= ->] & [= ->] & [= ->]).
Qed.

(** The matter density, key by key. *)
Lemma omega_matter_of_inr params omega_m :
  omega_matter_of py_float params = inr omega_m ↔
  match params !! "Cosmology:Omega_cdm" with
  | Some _ =>
      ∃ omega_b omega_cdm,
        float_item py_float params "Cosmology:Omega_b" = inr omega_b ∧
        float_item py_float params "Cosmology:Omega_cdm" = inr omega_cdm ∧
        omega_m = (omega_b + omega_cdm)%float
  | None => float_item py_float params "Cosmology:Omega_m" = inr omega_m
  end.
Proof.
  unfold omega_matter_of. rewrite contains_lookup.
  destruct (params !! "Cosmology:Omega_cdm") as [v|]; [|done].
  destruct (float_item py_float params "Cosmology:Omega_b") as [e|omega_b];
    cbn; [split; [done | by intros (? & ? & ? & _)]|].
  destruct (float_item py_float params "Cosmology:Omega_cdm") as [e|omega_cdm];
    cbn; [split; [done | by intros (? & ? & _ & ? & _)]|].
  split.
  - intros [= <-]. by exists omega_b, omega_cdm.
  - by intros (? & ? & [= <-] & [= <-] & ->).
Qed.

(** A missing key among those the cosmology block expects, with numeric
    values under the others, ends the reads by a [KeyError]. *)
Lemma cosmology_reads_missing header params k :
  k ∈ expected_cosmology_keys params →
  params !! k = None →
  numeric_at py_float header ["Redshift"] →
  numeric_at py_float params (expected_cosmology_keys params) →
  cosmology_reads py_float header params = inl KeyError.
Proof.
  intros Hk Hmissing Hheader Hparams.
  destruct (cosmology_reads py_float header params)
    as [e|[[[redshift omega_l] omega_m] little_h]] eqn:Hreads.
  - f_equal. revert Hreads Hparams. unfold cosmology_reads, omega_matter_of,
      expected_cosmology_keys.
    destruct (float_item py_float header "Redshift") eqn:E1; cbn.
    { intros [= ->] _.
      eapply float_item_inl in E1 as [-> _]; [done | exact Hheader|].
      by apply list_elem_of_singleton. }
    destruct (float_item py_float params "Cosmology:Omega_lambda") eqn:E2;
      cbn.
    { intros [= ->] Hnum.
      eapply float_item_inl in E2 as [-> _]; [done | exact Hnum|].
      cbn; repeat constructor. }
    destruct (contains params "Cosmology:Omega_cdm"); cbn.
    + destruct (float_item py_float params "Cosmology:Omega_b") eqn:E3; cbn.
      { intros [= ->] Hnum.
        eapply float_item_inl in E3 as [-> _]; [done | exact Hnum|].
        cbn; repeat constructor. }
      destruct (float_item py_float params "Cosmology:Omega_cdm") eqn:E4;
        cbn.
      { intros [= ->] Hnum.
        eapply float_item_inl in E4 as [-> _]; [done | exact Hnum|].
        cbn; repeat constructor. }
      destruct (float_item py_float params "Cosmology:h") eqn:E5; cbn; [|done].
      intros [= ->] Hnum.
      eapply float_item_inl in E5 as [-> _]; [done | exact Hnum|].
      cbn; repeat constructor.
    + destruct (float_item py_float params "Cosmology:Omega_m") eqn:E3; cbn.
      { intros [= ->] Hnum.
        eapply float_item_inl in E3 as [-> _]; [done | exact Hnum|].
        cbn; repeat constructor. }
      destruct (float_item py_float params "Cosmology:h") eqn:E5; cbn; [|done].
      intros [= ->] Hnum.
      eapply float_item_inl in E5 as [-> _]; [done | exact Hnum|].
      cbn; repeat constructor.
  - exfalso.
    apply cosmology_reads_inr in Hreads as (_ & Hl & Hm & Hh).
    apply omega_matter_of_inr in Hm.
    apply float_item_inr in Hl as (? & Hl & _).
    apply float_item_inr in Hh as (? & Hh & _).
    unfold expected_cosmology_keys in Hk. rewrite contains_lookup in Hk.
    destruct (params !! "Cosmology:Omega_cdm") as [v|] eqn:Hcdm.
    + destruct Hm as (? & ? & Hb & _ & _).
      apply float_item_inr in Hb as (? & Hb & _).
      cbn in Hk. repeat (apply elem_of_cons in Hk as [->|Hk]); try congruence.
      by apply elem_of_nil in Hk.
    + apply float_item_inr in Hm as (? & Hm & _).
      cbn in Hk. repeat (apply elem_of_cons in Hk as [->|Hk]); try congruence.
      by apply elem_of_nil in Hk.
Qed.

(** The fallback, whenever the reads end by a [KeyError]. *)
Lemma parse_fallback d l handle header policy params hydro subgrid box
    dimension periodic time flag :
  fs (filename d) = Some handle →
  core_metadata py_float py_int handle header policy params hydro subgrid
    box dimension periodic time flag →
  - maxsize - 1 ≤ dimension ≤ maxsize →
  dimension ≤ list_capacity →
  flag ≠ 0 →
  cosmology_reads py_float header params = inl KeyError →
  ∃ d' l',
    parse (d, l) = (inr tt, (d', l')) ∧
    l' = (l ++ fallback_records)%list ∧
    cosmological_simulation d' = 0 ∧
    current_redshift d' = 0%float ∧ omega_lambda d' = 0%float ∧
    omega_matter d' = 0%float ∧ hubble_constant d' = 0%float.
Proof.
  intros Hfs Hcore Hindex Hroom Hset Hreads.
  destruct (parse_result d l _ _ _ _ _ _ _ _ _ _ _ Hfs Hcore Hindex
              Hroom)
    as (r & d' & l' & Hrun & _ & _ & _ & _ & _ & _ & Hcosmo).
  apply Z.eqb_neq in Hset. rewrite Hset, Hreads in Hcosmo. cbn in Hcosmo.
  destruct Hcosmo as (-> & Hcosmo). by exists d', l'.
Qed.

(** Only [KeyError] is caught: any other exception raised while the
    cosmology is read leaves the parser. *)
Lemma parse_cosmology_error d l handle header policy params hydro subgrid
    box dimension periodic time flag e :
  fs (filename d) = Some handle →
  core_metadata py_float py_int handle header policy params hydro subgrid
    box dimension periodic time flag →
  - maxsize - 1 ≤ dimension ≤ maxsize →
  dimension ≤ list_capacity →
  flag ≠ 0 →
  cosmology_reads py_float header params = inl e →
  catches [KeyError] e = false →
  ∃ s', parse (d, l) = (inl e, s').
Proof.
  intros Hfs Hcore Hindex Hroom Hset Hreads Hcatch.
  destruct (parse_result d l _ _ _ _ _ _ _ _ _ _ _ Hfs Hcore Hindex
              Hroom)
    as (r & d' & l' & Hrun & _ & _ & _ & _ & _ & _ & Hcosmo).
  apply Z.eqb_neq in Hset. rewrite Hset, Hreads, Hcatch in Hcosmo.
  subst r. by exists (d', l').
Qed.

(** X9: outside the cosmology block nothing is caught: a Header without
    "BoxSize" ends the parse by a [KeyError], before any assignment. *)
Lemma parse_missing_box_size d l handle header policy params hydro subgrid :
  fs (filename d) = Some handle →
  handle !! "Header" = Some header →
  handle !! "Policy" = Some policy →
  handle !! "Parameters" = Some params →
  handle !! "HydroScheme" = Some hydro →
  handle !! "SubgridScheme" = Some subgrid →
  header !! "BoxSize" = None →
  parse (d, l) = (inl KeyError, (d, l)).
Proof.
  intros Hfs Hheader Hpolicy Hparams Hhydro Hsubgrid Hbox.
  pose proof (h5py_File_ok _ _ Hfs) as Hopen.
  pose proof (contains_lookup handle "RuntimePars") as Hhas.
  assert (getitem header "BoxSize" = inl KeyError) as Hget
    by (unfold getitem; by rewrite Hbox).
  unfold _parse_parameter_file.
  destruct (handle !! "RuntimePars") as [runtime|] eqn:Hruntime; by run.
Qed.

(** *** The claims on [_parse_parameter_file] *)

(** C1: on a snapshot whose Policy group sets "cosmological integration"
    and which lacks one of the cosmology keys the parser expects in
    Parameters, the parse does not fail: it logs the warning and then the
    informational record, resets [cosmological_simulation] to 0 and sets
    the four cosmology scalars to 0.0.  The snapshot holds the metadata
    read outside the cosmology block, with a Dimension that the list
    repetition of the periodicity accepts (index-sized, and no longer than
    the interpreter has the memory for), and the cosmology values it does
    hold are numeric. *)
Theorem missing_cosmology_key_falls_back d l handle header policy params
    hydro subgrid box dimension periodic time flag k :
  fs (filename d) = Some handle →
  core_metadata py_float py_int handle header policy params hydro subgrid
    box dimension periodic time flag →
  - maxsize - 1 ≤ dimension ≤ maxsize →
  dimension ≤ list_capacity →
  flag ≠ 0 →
  k ∈ expected_cosmology_keys params →
  params !! k = None →
  numeric_at py_float header ["Redshift"] →
  numeric_at py_float params (expected_cosmology_keys params) →
  ∃ d' l',
    parse (d, l) = (inr tt, (d', l')) ∧
    l' = (l ++ fallback_records)%list ∧
    cosmological_simulation d' = 0 ∧
    current_redshift d' = 0%float ∧ omega_lambda d' = 0%float ∧
    omega_matter d' = 0%float ∧ hubble_constant d' = 0%float.
Proof.
  intros Hfs Hcore Hindex Hroom Hset Hk Hmissing Hheader Hparams.
  eapply parse_fallback; [eassumption..|].
  by eapply cosmology_reads_missing.
Qed.

(** C3: after a parse, the periodicity vector has [dimensionality]
    entries, all equal; the flag deciding them is
    RuntimePars["PeriodicBoundariesOn"] when the file has the RuntimePars
    group and Parameters["InitialConditions:periodic"] otherwise, a nonzero
    flag giving all-true and a zero flag all-false. *)
Theorem periodicity_uniform d l d' l' :
  parse (d, l) = (inr tt, (d', l')) →
  ∃ handle params periodic,
    fs (filename d) = Some handle ∧
    handle !! "Parameters" = Some params ∧
    match handle !! "RuntimePars" with
    | Some runtime_parameters =>
        int_item py_int runtime_parameters "PeriodicBoundariesOn"
    | None => int_item py_int params "InitialConditions:periodic"
    end = inr periodic ∧
    length (_periodicity d') = Z.to_nat (dimensionality d') ∧
    (0 ≤ dimensionality d' →
     Z.of_nat (length (_periodicity d')) = dimensionality d') ∧
    (periodic ≠ 0 → Forall (λ b, b = true) (_periodicity d')) ∧
    (periodic = 0 → Forall (λ b, b = false) (_periodicity d')).
Proof.
  intros H.
  destruct (parse_ok_inv _ _ _ _ H)
    as (handle & header & policy & params & hydro & subgrid & box &
        dimension & periodic & time & flag & Hfs & Hcore & -> & -> & _).
  exists handle, params, periodic.
  split; [exact Hfs|]. split; [apply Hcore|]. split; [apply Hcore|].
  rewrite length_replicate.
  split; [reflexivity|]. split; [lia|].
  split; intros Hp.
  - apply Z.eqb_neq in Hp as ->. apply Forall_replicate. reflexivity.
  - apply Z.eqb_eq in Hp as ->. apply Forall_replicate. reflexivity.
Qed.

(** C4, as amended: when the parse leaves the cosmological flag set, the
    current redshift is the one read from the Header group
    (Header["Redshift"]); Omega_lambda, Omega_matter and little h are the
    ones read from the Parameters group. *)
Theorem cosmology_sources d l d' l' :
  parse (d, l) = (inr tt, (d', l')) →
  cosmological_simulation d' ≠ 0 →
  ∃ handle header params,
    fs (filename d) = Some handle ∧
    handle !! "Header" = Some header ∧
    handle !! "Parameters" = Some params ∧
    float_item py_float header "Redshift" = inr (current_redshift d') ∧
    float_item py_float params "Cosmology:Omega_lambda"
      = inr (omega_lambda d') ∧
    omega_matter_of py_float params = inr (omega_matter d') ∧
    float_item py_float params "Cosmology:h" = inr (hubble_constant d').
Proof.
  intros H Hset.
  destruct (parse_ok_inv _ _ _ _ H)
    as (handle & header & policy & params & hydro & subgrid & box &
        dimension & periodic & time & flag & Hfs & Hcore & _ & _ & _ & _ &
        _ & [(Hzero & _)|(_ & _ & Hreads)]); [done|].
  apply cosmology_reads_inr in Hreads.
  exists handle, header, params.
  split; [exact Hfs|]. split; [apply Hcore|]. split; [apply Hcore|]. done.
Qed.

(** C5: with the cosmological flag set and every cosmology key the parser
    expects present, [omega_matter] is
    float(Parameters["Cosmology:Omega_b"]) +
    float(Parameters["Cosmology:Omega_cdm"]) when "Cosmology:Omega_cdm" is
    a key of Parameters and float(Parameters["Cosmology:Omega_m"])
    otherwise; [cosmological_simulation] keeps the value read from Policy
    and the other cosmology scalars are the parsed values.  The statements
    before the cosmology block have to run: the snapshot holds the metadata
    they read, with a Dimension that the list repetition of the periodicity
    accepts. *)
Theorem cosmology_parsed d l handle header policy params hydro subgrid box
    dimension periodic time flag redshift omega_l omega_m little_h :
  fs (filename d) = Some handle →
  core_metadata py_float py_int handle header policy params hydro subgrid
    box dimension periodic time flag →
  - maxsize - 1 ≤ dimension ≤ maxsize →
  dimension ≤ list_capacity →
  flag ≠ 0 →
  float_item py_float header "Redshift" = inr redshift →
  float_item py_float params "Cosmology:Omega_lambda" = inr omega_l →
  match params !! "Cosmology:Omega_cdm" with
  | Some _ =>
      ∃ omega_b omega_cdm,
        float_item py_float params "Cosmology:Omega_b" = inr omega_b ∧
        float_item py_float params "Cosmology:Omega_cdm" = inr omega_cdm ∧
        omega_m = (omega_b + omega_cdm)%float
  | None => float_item py_float params "Cosmology:Omega_m" = inr omega_m
  end →
  float_item py_float params "Cosmology:h" = inr little_h →
  ∃ d' l',
    parse (d, l) = (inr tt, (d', l')) ∧
    l' = l ∧
    cosmological_simulation d' = flag ∧
    current_redshift d' = redshift ∧
    omega_lambda d' = omega_l ∧
    omega_matter d' = omega_m ∧
    hubble_constant d' = little_h.
Proof.
  intros Hfs Hcore Hindex Hroom Hset Hz Hl Hm Hh.
  destruct (parse_result d l _ _ _ _ _ _ _ _ _ _ _ Hfs Hcore Hindex
              Hroom)
    as (r & d' & l' & Hrun & _ & _ & _ & _ & _ & _ & Hcosmo).
  apply omega_matter_of_inr in Hm.
  assert (cosmology_reads py_float header params
          = inr (redshift, omega_l, omega_m, little_h)) as Hreads
    by by apply cosmology_reads_inr.
  apply Z.eqb_neq in Hset. rewrite Hset, Hreads in Hcosmo.
  destruct Hcosmo as (-> & Hcosmo). by exists d', l'.
Qed.

(** C7: after a parse, the raw parameters dictionary has exactly the six
    keys header, policy, parameters, runtime_parameters, hydro and subgrid,
    each holding the attribute dictionary of its group as read, and
    "runtime_parameters" is the empty dictionary exactly when the file has
    no RuntimePars group. *)
Theorem raw_parameters_stored d l d' l' :
  parse (d, l) = (inr tt, (d', l')) →
  ∃ handle header policy params hydro subgrid runtime_parameters,
    fs (filename d) = Some handle ∧
    handle !! "Header" = Some header ∧
    handle !! "Policy" = Some policy ∧
    handle !! "Parameters" = Some params ∧
    handle !! "HydroScheme" = Some hydro ∧
    handle !! "SubgridScheme" = Some subgrid ∧
    runtime_parameters = default ∅ (handle !! "RuntimePars") ∧
    dom (parameters d') =
      list_to_set
        ["header"; "policy"; "parameters"; "runtime_parameters"; "hydro";
         "subgrid"] ∧
    parameters d' !! "header" = Some header ∧
    parameters d' !! "policy" = Some policy ∧
    parameters d' !! "parameters" = Some params ∧
    parameters d' !! "runtime_parameters" = Some runtime_parameters ∧
    parameters d' !! "hydro" = Some hydro ∧
    parameters d' !! "subgrid" = Some subgrid ∧
    (runtime_parameters = ∅ ↔ handle !! "RuntimePars" = None).
Proof.
  intros H.
  destruct (parse_ok_inv _ _ _ _ H)
    as (handle & header & policy & params & hydro & subgrid & box &
        dimension & periodic & time & flag & Hfs & Hcore & _ & _ & -> & _).
  exists handle, header, policy, params, hydro, subgrid,
    (default ∅ (handle !! "RuntimePars")).
  split; [exact Hfs|]. do 5 (split; [apply Hcore|]).
  split; [reflexivity|].
  unfold raw_parameters, runtime_parameters_of.
  split.
  { rewrite !dom_insert_L, dom_empty_L. cbn. by rewrite !(assoc_L (∪)). }
  do 6 (split; [by simplify_map_eq|]).
  destruct Hcore as [_ _ _ _ _ _ _ Hperiodic _ _].
  unfold periodic_flag in Hperiodic.
  destruct (handle !! "RuntimePars") as [runtime|]; [|done].
  cbn. split; [|done]. intros ->.
  unfold int_item, getitem in Hperiodic.
  by rewrite lookup_empty in Hperiodic.
Qed.

(** C8: whenever a parse ends with the cosmological flag false, read as 0
    from Policy or reset by the fallback, the four cosmology scalars are
    0.0. *)
Theorem non_cosmological_scalars_zero d l d' l' :
  parse (d, l) = (inr tt, (d', l')) →
  cosmological_simulation d' = 0 →
  current_redshift d' = 0%float ∧ omega_lambda d' = 0%float ∧
  omega_matter d' = 0%float ∧ hubble_constant d' = 0%float.
Proof.
  intros H Hzero.
  destruct (parse_ok_inv _ _ _ _ H)
    as (handle & header & policy & params & hydro & subgrid & box &
        dimension & periodic & time & flag & _ & _ & _ & _ & _ & _ & _ &
        [(_ & Hscalars)|(Hflag & Hset & _)]); [exact Hscalars|].
  congruence.
Qed.

(** C9: on every file the parse succeeds on, [file_count] is 1 and
    [filename_template] is the resolved input path, [parameter_filename]. *)
Theorem single_file_snapshot d l d' l' :
  parse (d, l) = (inr tt, (d', l')) →
  file_count d' = 1 ∧ filename_template d' = parameter_filename d.
Proof.
  intros H.
  destruct (parse_ok_inv _ _ _ _ H)
    as (handle & header & policy & params & hydro & subgrid & box &
        dimension & periodic & time & flag & _ & _ & _ & _ & _ & Hcount &
        Htemplate & _).
  done.
Qed.

(** C10: on a snapshot whose Policy group sets "cosmological integration"
    and whose Header group has no "Redshift" attribute, the missing Header
    key does not escape the parse: it triggers the fallback of the missing
    Parameters keys, [cosmological_simulation] reset to 0 and the four
    cosmology scalars set to 0.0.  The statements before the cosmology
    block have to run: the snapshot holds the metadata they read, with a
    Dimension that the list repetition of the periodicity accepts. *)
Theorem missing_redshift_falls_back d l handle header policy params hydro
    subgrid box dimension periodic time flag :
  fs (filename d) = Some handle →
  core_metadata py_float py_int handle header policy params hydro subgrid
    box dimension periodic time flag →
  - maxsize - 1 ≤ dimension ≤ maxsize →
  dimension ≤ list_capacity →
  flag ≠ 0 →
  header !! "Redshift" = None →
  ∃ d' l',
    parse (d, l) = (inr tt, (d', l')) ∧
    l' = (l ++ fallback_records)%list ∧
    cosmological_simulation d' = 0 ∧
    current_redshift d' = 0%float ∧ omega_lambda d' = 0%float ∧
    omega_matter d' = 0%float ∧ hubble_constant d' = 0%float.
Proof.
  intros Hfs Hcore Hindex Hroom Hset Hmissing.
  eapply parse_fallback; [eassumption..|].
  unfold cosmology_reads. by rewrite (float_item_missing _ _ Hmissing).
Qed.
(** *** The claim on [_set_code_unit_attributes] *)

(** C6: the length unit has magnitude
    float(Units["Unit length in cgs (U_L)"]) in both cases, in comoving
    centimetres ("cmcm") when [cosmological_simulation] is 1 and in
    physical centimetres ("cm") otherwise; the mass, time and temperature
    units are the corresponding Units magnitudes in g, s and K. *)
Theorem code_units_from_Units d l handle units u_l u_m u_t u_temp :
  fs (filename d) = Some handle →
  handle !! "Units" = Some units →
  float_item py_float units "Unit length in cgs (U_L)" = inr u_l →
  float_item py_float units "Unit mass in cgs (U_M)" = inr u_m →
  float_item py_float units "Unit time in cgs (U_t)" = inr u_t →
  float_item py_float units "Unit temperature in cgs (U_T)" = inr u_temp →
  ∃ d' l',
    _set_code_unit_attributes py_float fs is_root (d, l)
      = (inr tt, (d', l')) ∧
    length_unit d' =
      quan u_l (if cosmological_simulation d =? 1 then "cmcm" else "cm") ∧
    mass_unit d' = quan u_m "g" ∧
    time_unit d' = quan u_t "s" ∧
    temperature_unit d' = quan u_temp "K".
Proof.
  intros Hfs Hunits Hl Hm Ht Htemp.
  unfold _set_code_unit_attributes, only_on_root.
  destruct (cosmological_simulation d =? 1) eqn:Hcosmological;
    destruct is_root; do 2 eexists; (split; [run; reflexivity|done]).
Qed.

(** *** What the methods leave alone *)

Lemma keeps_ret {A : Type} (R : SwiftDataset attr → SwiftDataset attr → Prop)
    `{!Reflexive R} (a : A) :
  keeps R (mret a : Py A).
Proof. intros d l r d' l' [= <- <- <-]. done. Qed.

Lemma keeps_lift {A : Type} (R : SwiftDataset attr → SwiftDataset attr → Prop)
    `{!Reflexive R} (x : result A) :
  keeps R (lift x).
Proof. intros d l r d' l' [= <- <- <-]. done. Qed.

Lemma keeps_gets {A : Type} (R : SwiftDataset attr → SwiftDataset attr → Prop)
    `{!Reflexive R} (field : SwiftDataset attr → A) :
  keeps R (gets field).
Proof. intros d l r d' l' [= <- <- <-]. done. Qed.

Lemma keeps_assign (R : SwiftDataset attr → SwiftDataset attr → Prop)
    (setter : SwiftDataset attr → SwiftDataset attr) :
  (∀ d, R d (setter d)) → keeps R (assign setter).
Proof. intros Hsetter d l r d' l' [= <- <- <-]. done. Qed.

Lemma keeps_log_warning (R : SwiftDataset attr → SwiftDataset attr → Prop)
    `{!Reflexive R} msg :
  keeps R (mylog_warning msg).
Proof.
  intros d l r d' l' [= <- <- <-]. split; [done|]. by apply prefix_app_r.
Qed.

Lemma keeps_log_info (R : SwiftDataset attr → SwiftDataset attr → Prop)
    `{!Reflexive R} msg :
  keeps R (mylog_info msg).
Proof.
  intros d l r d' l' [= <- <- <-]. split; [done|]. by apply prefix_app_r.
Qed.

Lemma keeps_bind {A B : Type}
    (R : SwiftDataset attr → SwiftDataset attr → Prop) `{!Transitive R}
    (m : Py A) (k : A → Py B) :
  keeps R m → (∀ a, keeps R (k a)) → keeps R (m ≫= k).
Proof.
  intros Hm Hk d l r d' l' Hrun.
  cbv [mbind Py_bind] in Hrun.
  destruct (m (d, l)) as [[e|a] [d1 l1]] eqn:Hfirst.
  - injection Hrun as <- <- <-. by eapply Hm.
  - destruct (Hm _ _ _ _ _ Hfirst) as [HR1 Hl1].
    destruct (Hk a _ _ _ _ _ Hrun) as [HR2 Hl2].
    split; [by etrans | by etrans].
Qed.

Lemma keeps_if {A : Type} (R : SwiftDataset attr → SwiftDataset attr → Prop)
    (b : bool) (m1 m2 : Py A) :
  keeps R m1 → keeps R m2 → keeps R (if b then m1 else m2).
Proof. by destruct b. Qed.

Lemma keeps_try_except {A : Type}
    (R : SwiftDataset attr → SwiftDataset attr → Prop) `{!Transitive R}
    (body handler : Py A) classes :
  keeps R body → keeps R handler → keeps R (try_except body classes handler).
Proof.
  intros Hbody Hhandler d l r d' l' Hrun.
  unfold try_except in Hrun.
  destruct (body (d, l)) as [[e|a] [d1 l1]] eqn:Hfirst.
  - destruct (catches classes e).
    + destruct (Hbody _ _ _ _ _ Hfirst) as [HR1 Hl1].
      destruct (Hhandler _ _ _ _ _ Hrun) as [HR2 Hl2].
      split; [by etrans | by etrans].
    + injection Hrun as <- <- <-. by eapply Hbody.
  - injection Hrun as <- <- <-. by eapply Hbody.
Qed.

Lemma keeps_get_info (R : SwiftDataset attr → SwiftDataset attr → Prop)
    `{!Reflexive R} `{!Transitive R} dataset :
  keeps R (_get_info_attributes fs dataset).
Proof.
  unfold _get_info_attributes.
  repeat first
    [ apply keeps_bind; [done| |intros ?]
    | by apply keeps_gets | by apply keeps_lift | by apply keeps_ret ].
Qed.

#[local] Instance same_paths_and_units_refl :
  Reflexive (@same_paths_and_units attr).
Proof. by intros d. Qed.

#[local] Instance same_paths_and_units_trans :
  Transitive (@same_paths_and_units attr).
Proof.
  intros d1 d2 d3 H12 H23. unfold same_paths_and_units in *.
  destruct_and!. repeat split; congruence.
Qed.

#[local] Instance same_but_units_refl : Reflexive (@same_but_units attr).
Proof. by intros d. Qed.

#[local] Instance same_but_units_trans : Transitive (@same_but_units attr).
Proof.
  intros d1 d2 d3 H12 H23. unfold same_but_units in *.
  destruct_and!. repeat split; congruence.
Qed.

(** The descriptors that agree on every field are equal. *)
Lemma SwiftDataset_eq (d1 d2 : SwiftDataset attr) :
  same_paths_and_units d1 d2 → same_but_units d1 d2 → d1 = d2.
Proof.
  destruct d1, d2. unfold same_paths_and_units, same_but_units. cbn.
  intros (? & ? & ? & ? & ? & ?)
    (_ & _ & ? & ? & ? & ? & ? & ? & ? & ? & ? & ? & ? & ? & ?).
  by subst.
Qed.

(** One statement of a frame proof. *)
Ltac keeps_step :=
  first
    [ apply keeps_bind; [tc_solve| |intros ?]
    | apply keeps_get_info; tc_solve
    | apply keeps_gets; tc_solve
    | apply keeps_lift; tc_solve
    | apply keeps_ret; tc_solve
    | apply keeps_log_warning; tc_solve
    | apply keeps_log_info; tc_solve
    | apply keeps_try_except; [tc_solve| |]
    | apply keeps_if
    | apply keeps_assign; intros ?; by repeat split ].

Lemma parse_keeps : keeps same_paths_and_units parse.
Proof.
  unfold _parse_parameter_file. cbv zeta. repeat keeps_step.
Qed.

Lemma units_keep :
  keeps same_but_units (_set_code_unit_attributes py_float fs is_root).
Proof.
  unfold _set_code_unit_attributes, only_on_root.
  destruct is_root; repeat keeps_step.
Qed.

(** X12: however [_parse_parameter_file] ends, it has not touched the two
    paths nor the four units of the descriptor, and it has only appended to
    the log. *)
Theorem parse_leaves_paths_and_units d l r d' l' :
  parse (d, l) = (r, (d', l')) →
  same_paths_and_units d d' ∧ l `prefix_of` l'.
Proof.
  apply parse_keeps.
Qed.

(** X22: however [_set_code_unit_attributes] ends, it has assigned nothing
    but the four units, and it has only appended to the log. *)
Theorem units_leave_the_rest d l r d' l' :
  _set_code_unit_attributes py_float fs is_root (d, l) = (r, (d', l')) →
  same_but_units d d' ∧ l `prefix_of` l'.
Proof.
  apply units_keep.
Qed.

(** *** How [_parse_parameter_file] fails *)

(** X7: a file that does not open ends the parse by an [OSError], with the
    descriptor and the log untouched. *)
Theorem parse_unopenable d l :
  fs (filename d) = None →
  parse (d, l) = (inl OSError, (d, l)).
Proof.
  intros Hfs. unfold _parse_parameter_file. by run.
Qed.

(** X8: a container without one of the five groups the parser reads,
    Header, Policy, Parameters, HydroScheme or SubgridScheme, ends the parse
    by a [KeyError] before anything is assigned; this holds for the two
    scheme groups too, which are only passed through. *)
Theorem parse_missing_group d l handle group :
  fs (filename d) = Some handle →
  group ∈ ["Header"; "Policy"; "Parameters"; "HydroScheme"; "SubgridScheme"] →
  handle !! group = None →
  parse (d, l) = (inl KeyError, (d, l)).
Proof.
  intros Hfs Hgroup Hmissing.
  pose proof (h5py_File_ok _ _ Hfs) as Hopen.
  pose proof (contains_lookup handle "RuntimePars") as Hhas.
  unfold _parse_parameter_file.
  destruct (handle !! "Header") as [header|] eqn:Hheader; [|by run].
  destruct (handle !! "RuntimePars") as [runtime|] eqn:Hruntime.
  all: destruct (handle !! "Policy") as [policy|] eqn:Hpolicy; [|by run].
  all: destruct (handle !! "Parameters") as [params|] eqn:Hparams; [|by run].
  all: destruct (handle !! "HydroScheme") as [hydro|] eqn:Hhydro; [|by run].
  all: destruct (handle !! "SubgridScheme") as [subgrid|] eqn:Hsubgrid;
    [|by run].
  all: repeat (apply elem_of_cons in Hgroup as [->|Hgroup]); try congruence.
  all: by apply elem_of_nil in Hgroup.
Qed.

(** X10: a Header with "BoxSize" but without "Dimension" ends the parse by
    a [KeyError] after the two domain edges have been assigned, and nothing
    else. *)
Theorem parse_missing_dimension d l handle header policy params hydro
    subgrid box :
  fs (filename d) = Some handle →
  handle !! "Header" = Some header →
  handle !! "Policy" = Some policy →
  handle !! "Parameters" = Some params →
  handle !! "HydroScheme" = Some hydro →
  handle !! "SubgridScheme" = Some subgrid →
  header !! "BoxSize" = Some box →
  header !! "Dimension" = None →
  parse (d, l) =
    (inl KeyError,
     (set_domain_left_edge (zeros_like box) (set_domain_right_edge box d),
      l)).
Proof.
  intros Hfs Hheader Hpolicy Hparams Hhydro Hsubgrid Hbox Hdim.
  pose proof (h5py_File_ok _ _ Hfs) as Hopen.
  pose proof (contains_lookup handle "RuntimePars") as Hhas.
  apply getitem_inr in Hbox.
  assert (int_item py_int header "Dimension" = inl KeyError) as Hint
    by (unfold int_item, getitem; by rewrite Hdim).
  unfold _parse_parameter_file.
  destruct (handle !! "RuntimePars") as [runtime|] eqn:Hruntime; by run.
Qed.

(** X25: a Header whose "Dimension" does not fit an index-sized integer
    ends the parse by the [OverflowError] of the list repetition, after the
    two domain edges and [dimensionality] have been assigned; the
    periodicity and everything after it are as they were. *)
Theorem parse_dimension_not_index_sized d l handle header policy params
    hydro subgrid box dimension periodic :
  fs (filename d) = Some handle →
  handle !! "Header" = Some header →
  handle !! "Policy" = Some policy →
  handle !! "Parameters" = Some params →
  handle !! "HydroScheme" = Some hydro →
  handle !! "SubgridScheme" = Some subgrid →
  header !! "BoxSize" = Some box →
  int_item py_int header "Dimension" = inr dimension →
  periodic_flag py_int handle params = inr periodic →
  dimension < - maxsize - 1 ∨ maxsize < dimension →
  parse (d, l) =
    (inl OverflowError,
     (set_dimensionality dimension
        (set_domain_left_edge (zeros_like box)
           (set_domain_right_edge box d)),
      l)).
Proof.
  intros Hfs Hheader Hpolicy Hparams Hhydro Hsubgrid Hbox Hdim Hperiodic
    Hrange.
  pose proof (h5py_File_ok _ _ Hfs) as Hopen.
  pose proof (contains_lookup handle "RuntimePars") as Hhas.
  apply getitem_inr in Hbox.
  assert (list_mul maxsize list_capacity (negb (periodic =? 0)) dimension
          = inl OverflowError) as Hrepeat
    by (apply list_mul_inl; by left).
  unfold periodic_flag in Hperiodic. unfold _parse_parameter_file.
  destruct (handle !! "RuntimePars") as [runtime|] eqn:Hruntime; by run.
Qed.

(** X11: inside the cosmology block only [KeyError] is caught.  When
    reading the cosmology raises anything else, a value that [float]
    refuses, the exception leaves the parser; the geometry and the time
    read before are already stored.  This is for a Dimension that the list
    repetition accepts; the parse ends earlier otherwise. *)
Theorem cosmology_error_escapes d l handle header policy params hydro
    subgrid box dimension periodic time flag e :
  fs (filename d) = Some handle →
  core_metadata py_float py_int handle header policy params hydro subgrid
    box dimension periodic time flag →
  - maxsize - 1 ≤ dimension ≤ maxsize →
  dimension ≤ list_capacity →
  flag ≠ 0 →
  cosmology_reads py_float header params = inl e →
  catches [KeyError] e = false →
  ∃ d' l',
    parse (d, l) = (inl e, (d', l')) ∧
    domain_right_edge d' = box ∧
    domain_left_edge d' = zeros_like box ∧
    dimensionality d' = dimension ∧
    _periodicity d' = replicate (Z.to_nat dimension) (negb (periodic =? 0)) ∧
    current_time d' = time.
Proof.
  intros Hfs Hcore Hindex Hroom Hset Hreads Hcatch.
  destruct (parse_result d l _ _ _ _ _ _ _ _ _ _ _ Hfs Hcore Hindex
              Hroom)
    as (r & d' & l' & Hrun & Hright & Hleft & Hdim & Hper & Htime & _ &
        Hcosmo).
  apply Z.eqb_neq in Hset. rewrite Hset, Hreads, Hcatch in Hcosmo.
  subst r. by exists d', l'.
Qed.

(** *** What a normal return of [_parse_parameter_file] fixes *)

(** A normal return, with the log. *)
Lemma parse_ok_full d l d' l' :
  parse (d, l) = (inr tt, (d', l')) →
  ∃ handle header policy params hydro subgrid box dimension periodic
    time flag,
    fs (filename d) = Some handle ∧
    core_metadata py_float py_int handle header policy params hydro
      subgrid box dimension periodic time flag ∧
    domain_right_edge d' = box ∧
    domain_left_edge d' = zeros_like box ∧
    dimensionality d' = dimension ∧
    _periodicity d' = replicate (Z.to_nat dimension) (negb (periodic =? 0)) ∧
    current_time d' = time ∧
    parameters d' =
      raw_parameters header policy params (runtime_parameters_of handle)
        hydro subgrid ∧
    file_count d' = 1 ∧
    filename_template d' = parameter_filename d ∧
    ((flag = 0 ∧ l' = l ∧ cosmological_simulation d' = 0) ∨
     (flag ≠ 0 ∧ l' = (l ++ fallback_records)%list ∧
      cosmological_simulation d' = 0) ∨
     (flag ≠ 0 ∧ l' = l ∧ cosmological_simulation d' = flag)).
Proof.
  intros H.
  destruct (parse_ok_core _ _ _ _ H)
    as (handle & header & policy & params & hydro & subgrid & box &
        dimension & periodic & time & flag & Hfs & Hcore & Hindex & Hroom).
  destruct (parse_result d l _ _ _ _ _ _ _ _ _ _ _ Hfs Hcore Hindex
              Hroom)
    as (r & d2 & l2 & Hrun & ? & ? & ? & ? & ? & Hraw & Hcosmo).
  rewrite H in Hrun. injection Hrun as <- <- <-.
  destruct (Hraw eq_refl) as (? & ? & ?).
  exists handle, header, policy, params, hydro, subgrid, box, dimension,
    periodic, time, flag.
  do 10 (split; [assumption|]).
  destruct (Z.eqb_spec flag 0) as [Hzero|Hset].
  - left. tauto.
  - destruct (cosmology_reads py_float header params)
      as [e|[[[redshift omega_l] omega_m] little_h]].
    + destruct (catches [KeyError] e); [|discriminate Hcosmo].
      right; left. tauto.
    + right; right. tauto.
Qed.

(** X15: after a parse the right edge of the domain is Header["BoxSize"]
    as stored, the left edge is [zeros_like] of it, and the time is
    float(Header["Time"]). *)
Theorem domain_from_header d l d' l' :
  parse (d, l) = (inr tt, (d', l')) →
  ∃ handle header,
    fs (filename d) = Some handle ∧
    handle !! "Header" = Some header ∧
    header !! "BoxSize" = Some (domain_right_edge d') ∧
    domain_left_edge d' = zeros_like (domain_right_edge d') ∧
    float_item py_float header "Time" = inr (current_time d').
Proof.
  intros H.
  destruct (parse_ok_full _ _ _ _ H)
    as (handle & header & policy & params & hydro & subgrid & box &
        dimension & periodic & time & flag & Hfs & Hcore & -> & -> & _ &
        _ & -> & _).
  exists handle, header.
  split; [exact Hfs|]. do 2 (split; [apply Hcore|]). split; [done|].
  apply Hcore.
Qed.

(** X16: after a parse the derived fields can be read back from the raw
    dictionaries the descriptor keeps: the right edge, the dimensionality
    and the time from [parameters["header"]], and the cosmological flag,
    unless it is 0, from [parameters["policy"]]. *)
Theorem derived_fields_in_raw_parameters d l d' l' :
  parse (d, l) = (inr tt, (d', l')) →
  ∃ header policy,
    parameters d' !! "header" = Some header ∧
    parameters d' !! "policy" = Some policy ∧
    header !! "BoxSize" = Some (domain_right_edge d') ∧
    int_item py_int header "Dimension" = inr (dimensionality d') ∧
    float_item py_float header "Time" = inr (current_time d') ∧
    (cosmological_simulation d' = 0 ∨
     int_item py_int policy "cosmological integration"
       = inr (cosmological_simulation d')).
Proof.
  intros H.
  destruct (parse_ok_full _ _ _ _ H)
    as (handle & header & policy & params & hydro & subgrid & box &
        dimension & periodic & time & flag & Hfs & Hcore & -> & _ & -> &
        _ & -> & -> & _ & _ & Hcosmo).
  exists header, policy. unfold raw_parameters.
  do 2 (split; [by simplify_map_eq|]).
  do 3 (split; [apply Hcore|]).
  destruct Hcosmo as [(_ & _ & ->)|[(_ & _ & ->)|(_ & _ & ->)]];
    [by left..|].
  right. apply Hcore.
Qed.

(** X13: the parser logs in the fallback only.  A normal return leaves the
    log as it was, or, when the Policy flag was set and has been reset,
    with exactly the warning and the informational record appended. *)
Theorem parse_log d l d' l' :
  parse (d, l) = (inr tt, (d', l')) →
  ∃ handle policy flag,
    fs (filename d) = Some handle ∧
    handle !! "Policy" = Some policy ∧
    int_item py_int policy "cosmological integration" = inr flag ∧
    l' =
      (l ++
       if negb (flag =? 0) && (cosmological_simulation d' =? 0)
       then fallback_records else [])%list.
Proof.
  intros H.
  destruct (parse_ok_full _ _ _ _ H)
    as (handle & header & policy & params & hydro & subgrid & box &
        dimension & periodic & time & flag & Hfs & Hcore & _ & _ & _ &
        _ & _ & _ & _ & _ & Hcosmo).
  exists handle, policy, flag.
  split; [exact Hfs|]. do 2 (split; [apply Hcore|]).
  destruct Hcosmo as [(-> & -> & _)|[(Hset & -> & ->)|(Hset & -> & ->)]].
  - cbn. by rewrite app_nil_r.
  - apply Z.eqb_neq in Hset. by rewrite Hset.
  - apply Z.eqb_neq in Hset. rewrite Hset. cbn. by rewrite app_nil_r.
Qed.

(** X14: parsing is idempotent.  Parsing again the descriptor a parse has
    returned succeeds and returns the same descriptor. *)
Theorem parse_twice d l d' l' :
  parse (d, l) = (inr tt, (d', l')) →
  ∃ l'', parse (d', l') = (inr tt, (d', l'')).
Proof.
  intros H.
  destruct (parse_keeps _ _ _ _ _ H) as [Hsame _].
  destruct (parse_ok_core _ _ _ _ H)
    as (handle & header & policy & params & hydro & subgrid & box &
        dimension & periodic & time & flag & Hfs & Hcore & Hindex & Hroom).
  assert (fs (filename d') = Some handle) as Hfs'
    by (destruct Hsame as (-> & _); exact Hfs).
  destruct (parse_result d l _ _ _ _ _ _ _ _ _ _ _ Hfs Hcore Hindex
              Hroom)
    as (r1 & d1 & l1 & Hrun1 & ? & ? & ? & ? & ? & Hraw1 & Hcosmo1).
  rewrite H in Hrun1. injection Hrun1 as <- <- <-.
  destruct (Hraw1 eq_refl) as (? & ? & ?).
  destruct (parse_result d' l' _ _ _ _ _ _ _ _ _ _ _ Hfs' Hcore Hindex
              Hroom)
    as (r2 & d2 & l2 & Hrun2 & ? & ? & ? & ? & ? & Hraw2 & Hcosmo2).
  destruct (parse_keeps _ _ _ _ _ Hrun2) as [Hsame2 _].
  assert (r2 = inr tt ∧
          cosmological_simulation d2 = cosmological_simulation d' ∧
          current_redshift d2 = current_redshift d' ∧
          omega_lambda d2 = omega_lambda d' ∧
          omega_matter d2 = omega_matter d' ∧
          hubble_constant d2 = hubble_constant d')
    as (-> & ? & ? & ? & ? & ?).
  { destruct (flag =? 0).
    - destruct_and!. repeat split; congruence.
    - destruct (cosmology_reads py_float header params)
        as [e|[[[redshift omega_l] omega_m] little_h]].
      + destruct (catches [KeyError] e); [|discriminate Hcosmo1].
        destruct_and!. repeat split; congruence.
      + destruct_and!. repeat split; congruence. }
  destruct (Hraw2 eq_refl) as (? & ? & ?).
  exists l2. rewrite Hrun2. do 2 f_equal.
  f_equal. symmetry. apply SwiftDataset_eq; [exact Hsame2|].
  unfold same_paths_and_units, same_but_units in *. destruct_and!.
  repeat split; congruence.
Qed.

(** *** The unit resolver, step by step *)

Local Abbreviation set_units := (_set_code_unit_attributes py_float fs is_root).

(** The resolver on a snapshot whose Units group holds the four
    magnitudes. *)
Lemma units_run d l handle units u_l u_m u_t u_temp :
  fs (filename d) = Some handle →
  handle !! "Units" = Some units →
  float_item py_float units "Unit length in cgs (U_L)" = inr u_l →
  float_item py_float units "Unit mass in cgs (U_M)" = inr u_m →
  float_item py_float units "Unit time in cgs (U_t)" = inr u_t →
  float_item py_float units "Unit temperature in cgs (U_T)" = inr u_temp →
  set_units (d, l) =
    (inr tt,
     (with_units u_l u_m u_t u_temp d,
      (l ++ units_records is_root (cosmological_simulation d))%list)).
Proof.
  intros Hfs Hunits Hl Hm Ht Htemp.
  unfold _set_code_unit_attributes, only_on_root, with_units, units_records,
    length_symbol, length_message.
  destruct (cosmological_simulation d =? 1) eqn:Hcosmological;
    destruct is_root; run; by rewrite ?app_nil_r.
Qed.

(** A normal return of the resolver. *)
Lemma units_ok_inv d l d' l' :
  set_units (d, l) = (inr tt, (d', l')) →
  ∃ handle units u_l u_m u_t u_temp,
    fs (filename d) = Some handle ∧
    handle !! "Units" = Some units ∧
    float_item py_float units "Unit length in cgs (U_L)" = inr u_l ∧
    float_item py_float units "Unit mass in cgs (U_M)" = inr u_m ∧
    float_item py_float units "Unit time in cgs (U_t)" = inr u_t ∧
    float_item py_float units "Unit temperature in cgs (U_T)" = inr u_temp.
Proof.
  intros H. unfold _set_code_unit_attributes, only_on_root in H.
  run_in H.
  destruct (fs (filename d)) as [handle|] eqn:Hfs; [|done].
  destruct (handle !! "Units") as [units|] eqn:Hunits; [|done].
  destruct is_root; run_cases H; by eexists _, _, _, _, _, _.
Qed.

(** X23: a resolver that returns has logged exactly one informational
    record when it runs on the coordinating process, "comoving" when
    [cosmological_simulation] is 1 and "physical" otherwise, and nothing on
    the other processes. *)
Theorem units_log d l d' l' :
  set_units (d, l) = (inr tt, (d', l')) →
  l' = (l ++ units_records is_root (cosmological_simulation d))%list.
Proof.
  intros H.
  destruct (units_ok_inv _ _ _ _ H)
    as (handle & units & u_l & u_m & u_t & u_temp & Hfs & Hunits & Hl & Hm &
        Ht & Htemp).
  rewrite (units_run _ _ _ _ _ _ _ _ Hfs Hunits Hl Hm Ht Htemp) in H.
  by injection H as _ <-.
Qed.

(** X24: the resolver is idempotent: run again on the descriptor it has
    returned, it returns the same descriptor. *)
Theorem units_twice d l d' l' :
  set_units (d, l) = (inr tt, (d', l')) →
  ∃ l'', set_units (d', l') = (inr tt, (d', l'')).
Proof.
  intros H.
  destruct (units_ok_inv _ _ _ _ H)
    as (handle & units & u_l & u_m & u_t & u_temp & Hfs & Hunits & Hl & Hm &
        Ht & Htemp).
  rewrite (units_run _ _ _ _ _ _ _ _ Hfs Hunits Hl Hm Ht Htemp) in H.
  injection H as <- <-.
  eexists. by erewrite units_run.
Qed.

(** X19: without a Units group, or without a file that opens, the resolver
    raises the lookup or I/O error with the descriptor untouched and
    nothing logged. *)
Theorem units_without_group d l :
  fs (filename d) ≫= (.!! "Units") = None →
  ∃ e,
    set_units (d, l) = (inl e, (d, l)) ∧ (e = OSError ∨ e = KeyError).
Proof.
  intros Hnone. unfold _set_code_unit_attributes.
  destruct (fs (filename d)) as [handle|] eqn:Hfs.
  - cbn in Hnone. exists KeyError. split; [by run | by right].
  - exists OSError. split; [by run | by left].
Qed.

(** X20: when the Units group has no length, the resolver has already
    logged its message on the length units when the [KeyError] is raised;
    no unit is assigned. *)
Theorem units_missing_length d l handle units :
  fs (filename d) = Some handle →
  handle !! "Units" = Some units →
  units !! "Unit length in cgs (U_L)" = None →
  set_units (d, l) =
    (inl KeyError,
     (d, (l ++ units_records is_root (cosmological_simulation d))%list)).
Proof.
  intros Hfs Hunits Hmissing. apply float_item_missing in Hmissing.
  unfold _set_code_unit_attributes, only_on_root, units_records,
    length_message.
  destruct (cosmological_simulation d =? 1) eqn:Hcosmological;
    destruct is_root; run; by rewrite ?app_nil_r.
Qed.

(** X21: the units are assigned one by one.  When the Units group has a
    length but no mass, the [KeyError] is raised with the length unit
    already assigned and the three others as they were. *)
Theorem units_missing_mass d l handle units u_l :
  fs (filename d) = Some handle →
  handle !! "Units" = Some units →
  float_item py_float units "Unit length in cgs (U_L)" = inr u_l →
  units !! "Unit mass in cgs (U_M)" = None →
  set_units (d, l) =
    (inl KeyError,
     (set_length_unit
        (quan u_l (length_symbol (cosmological_simulation d))) d,
      (l ++ units_records is_root (cosmological_simulation d))%list)).
Proof.
  intros Hfs Hunits Hl Hmissing. apply float_item_missing in Hmissing.
  unfold _set_code_unit_attributes, only_on_root, units_records,
    length_message, length_symbol.
  destruct (cosmological_simulation d =? 1) eqn:Hcosmological;
    destruct is_root; run; by rewrite ?app_nil_r.
Qed.

(** *** Parsing, then resolving the units *)

(** X17: a snapshot flagged cosmological that falls back, here for want of
    Header["Redshift"], gets its length in physical centimetres: the
    resolver sees the flag the fallback has reset.  The Dimension is one
    that the list repetition of the periodicity accepts. *)
Theorem fallback_gives_physical_length d l handle header policy params
    hydro subgrid box dimension periodic time flag units u_l u_m u_t u_temp :
  fs (filename d) = Some handle →
  core_metadata py_float py_int handle header policy params hydro subgrid
    box dimension periodic time flag →
  - maxsize - 1 ≤ dimension ≤ maxsize →
  dimension ≤ list_capacity →
  flag ≠ 0 →
  header !! "Redshift" = None →
  handle !! "Units" = Some units →
  float_item py_float units "Unit length in cgs (U_L)" = inr u_l →
  float_item py_float units "Unit mass in cgs (U_M)" = inr u_m →
  float_item py_float units "Unit time in cgs (U_t)" = inr u_t →
  float_item py_float units "Unit temperature in cgs (U_T)" = inr u_temp →
  ∃ d'' l'',
    (parse;; set_units) (d, l) = (inr tt, (d'', l'')) ∧
    cosmological_simulation d'' = 0 ∧
    length_unit d'' = quan u_l "cm".
Proof.
  intros Hfs Hcore Hindex Hroom Hset Hmissing Hunits Hl Hm Ht Htemp.
  assert (cosmology_reads py_float header params = inl KeyError) as Hreads.
  { unfold cosmology_reads. by rewrite (float_item_missing _ _ Hmissing). }
  destruct (parse_fallback d l _ _ _ _ _ _ _ _ _ _ _ Hfs Hcore Hindex Hroom
              Hset Hreads)
    as (d' & l' & Hparse & _ & Hzero & _).
  destruct (parse_keeps _ _ _ _ _ Hparse) as [(Hname & _) _].
  rewrite <- Hname in Hfs.
  pose proof (units_run d' l' _ _ _ _ _ _ Hfs Hunits Hl Hm Ht Htemp) as Hrun.
  eexists _, _. split.
  - cbv [mbind Py_bind]. rewrite Hparse. exact Hrun.
  - unfold with_units, length_symbol. cbn. by rewrite Hzero.
Qed.

(** X18: the parser takes any nonzero Policy flag for cosmological, the
    resolver only the value 1.  With the cosmology read, the scalars are the
    parsed ones whatever the nonzero flag, and the length is comoving for
    the flag 1 and physical for every other one.  The Dimension is one that
    the list repetition of the periodicity accepts. *)
Theorem units_after_cosmological_parse d l handle header policy params
    hydro subgrid box dimension periodic time flag redshift omega_l omega_m
    little_h units u_l u_m u_t u_temp :
  fs (filename d) = Some handle →
  core_metadata py_float py_int handle header policy params hydro subgrid
    box dimension periodic time flag →
  - maxsize - 1 ≤ dimension ≤ maxsize →
  dimension ≤ list_capacity →
  flag ≠ 0 →
  cosmology_reads py_float header params
    = inr (redshift, omega_l, omega_m, little_h) →
  handle !! "Units" = Some units →
  float_item py_float units "Unit length in cgs (U_L)" = inr u_l →
  float_item py_float units "Unit mass in cgs (U_M)" = inr u_m →
  float_item py_float units "Unit time in cgs (U_t)" = inr u_t →
  float_item py_float units "Unit temperature in cgs (U_T)" = inr u_temp →
  ∃ d'' l'',
    (parse;; set_units) (d, l) = (inr tt, (d'', l'')) ∧
    cosmological_simulation d'' = flag ∧
    current_redshift d'' = redshift ∧
    omega_matter d'' = omega_m ∧
    length_unit d'' = quan u_l (if flag =? 1 then "cmcm" else "cm").
Proof.
  intros Hfs Hcore Hindex Hroom Hset Hreads Hunits Hl Hm Ht Htemp.
  destruct (parse_result d l _ _ _ _ _ _ _ _ _ _ _ Hfs Hcore Hindex
              Hroom)
    as (r & d' & l' & Hparse & _ & _ & _ & _ & _ & _ & Hcosmo).
  apply Z.eqb_neq in Hset. rewrite Hset, Hreads in Hcosmo.
  destruct Hcosmo as (-> & _ & Hflag & Hz & _ & Hom & _).
  destruct (parse_keeps _ _ _ _ _ Hparse) as [(Hname & _) _].
  rewrite <- Hname in Hfs.
  pose proof (units_run d' l' _ _ _ _ _ _ Hfs Hunits Hl Hm Ht Htemp) as Hrun.
  eexists _, _. split.
  - cbv [mbind Py_bind]. rewrite Hparse. exact Hrun.
  - unfold with_units, length_symbol. cbn. by rewrite Hflag.
Qed.

End Properties.

(** ** Properties of the validity predicate *)

Section Validity.

Context {attr : Type}.
Variable decode_utf8 : attr → result string.
Variable fs : string → option (gmap string (gmap string attr)).

Local Abbreviation is_valid := (_is_valid decode_utf8 fs).

(** Without the HDF5 binding no file is valid, and none is opened. *)
Lemma is_valid_without_binding path : is_valid true path = inr false.
Proof. reflexivity. Qed.

(** A file that does not open is not valid. *)
Lemma is_valid_unopenable missing path :
  fs path = None → is_valid missing path = inr false.
Proof.
  intros Hopen. unfold _is_valid, h5py_File. rewrite Hopen.
  destruct missing; reflexivity.
Qed.

(** Nor is a container without the Header object or its "Code"
    attribute. *)
Lemma is_valid_untagged missing path handle :
  fs path = Some handle →
  handle !! "Header" ≫= (.!! "Code") = None →
  is_valid missing path = inr false.
Proof.
  intros Hopen Hcode. unfold _is_valid, h5py_File, getitem. rewrite Hopen.
  destruct missing; [reflexivity|].
  cbn [mbind result_bind].
  destruct (handle !! "Header") as [header|]; [|reflexivity].
  cbn in Hcode. cbn [mbind result_bind]. rewrite Hcode. reflexivity.
Qed.

(** X1: the predicate holds exactly of the containers whose "Code" decodes
    to the tag. *)
Lemma is_valid_true_iff path :
  is_valid false path = inr true ↔
  ∃ handle header code,
    fs path = Some handle ∧
    handle !! "Header" = Some header ∧
    header !! "Code" = Some code ∧
    decode_utf8 code = inr "SWIFT".
Proof.
  unfold _is_valid, h5py_File, getitem.
  destruct (fs path) as [handle|] eqn:Hopen; cbn [mbind result_bind].
  2: { split; [by intros [=]|]. intros (? & ? & ? & ? & _). congruence. }
  destruct (handle !! "Header") as [header|] eqn:Hheader;
    cbn [mbind result_bind].
  2: { split; [by intros [=]|]. intros (? & ? & ? & ? & ? & _). congruence. }
  destruct (header !! "Code") as [code|] eqn:Hcode; cbn [mbind result_bind].
  2: { split; [by intros [=]|]. intros (? & ? & ? & ? & ? & ? & _).
       congruence. }
  destruct (decode_utf8 code) as [e|tag] eqn:Hdecode.
  - split.
    + cbn -[catches]. by destruct (catches [OSError; KeyError] e).
    + intros (? & ? & ? & ? & ? & ? & ?). congruence.
  - cbn. split.
    + intros [= Htag%String.eqb_eq]. subst tag. by exists handle, header, code.
    + intros (? & ? & ? & ? & ? & ? & ?).
      assert (tag = "SWIFT") as -> by congruence. reflexivity.
Qed.

(** An exception of the decoding that is neither an [OSError] nor a
    [KeyError] leaves the predicate. *)
Lemma is_valid_decode_error path handle header code e :
  fs path = Some handle →
  handle !! "Header" = Some header →
  header !! "Code" = Some code →
  decode_utf8 code = inl e →
  catches [OSError; KeyError] e = false →
  is_valid false path = inl e.
Proof.
  intros Hopen Hheader Hcode Hdecode Hcatch.
  unfold _is_valid, h5py_File, getitem.
  rewrite Hopen. cbn [mbind result_bind]. rewrite Hheader.
  cbn [mbind result_bind]. rewrite Hcode. cbn [mbind result_bind].
  rewrite Hdecode. cbn -[catches]. by rewrite Hcatch.
Qed.

(** The predicate, case by case: what is stored under Header "Code", and
    what decoding it gives. *)
Lemma is_valid_outcome path :
  is_valid false path =
  match code_attribute fs path with
  | None => inr false
  | Some code =>
      match decode_utf8 code with
      | inr tag => inr (String.eqb tag "SWIFT")
      | inl e => if catches [OSError; KeyError] e then inr false else inl e
      end
  end.
Proof.
  unfold _is_valid, h5py_File, getitem, code_attribute.
  destruct (fs path) as [handle|]; [|reflexivity].
  cbn [mbind result_bind option_bind].
  destruct (handle !! "Header") as [header|]; [|reflexivity].
  cbn [mbind result_bind option_bind].
  destruct (header !! "Code") as [code|]; [|reflexivity].
  cbn [mbind result_bind].
  destruct (decode_utf8 code) as [e|tag]; [|reflexivity].
  cbn -[catches]. by destruct (catches [OSError; KeyError] e).
Qed.

(** X2: the predicate raises exactly when the HDF5 binding is there, the
    file opens, Header "Code" is stored, and decoding it raises an
    exception that is neither an [OSError] nor a [KeyError]; it then raises
    that exception. *)
Theorem is_valid_raises_iff missing path e :
  is_valid missing path = inl e ↔
  missing = false ∧
  ∃ code,
    code_attribute fs path = Some code ∧
    decode_utf8 code = inl e ∧
    catches [OSError; KeyError] e = false.
Proof.
  destruct missing; [split; [by intros [=] | by intros ([=] & _)]|].
  rewrite is_valid_outcome.
  destruct (code_attribute fs path) as [code|].
  2: { split; [by intros [=]|]. intros (_ & ? & Habs & _). discriminate Habs. }
  destruct (decode_utf8 code) as [e'|tag] eqn:Hdecode.
  - destruct (catches [OSError; KeyError] e') eqn:Hcatch.
    + split; [by intros [=]|]. intros (_ & ? & [= <-] & Herr & Hfree).
      congruence.
    + split.
      * intros [= ->]. split; [done|]. by exists code.
      * intros (_ & ? & [= <-] & Herr & _). congruence.
  - split; [by intros [=]|]. intros (_ & ? & [= <-] & Herr & _). congruence.
Qed.

(** X3: whatever else holds, a file that does not open, a container
    without a Header object and a Header without a "Code" attribute are not
    valid: the answer is false, not an exception. *)
Theorem is_valid_false_without_code missing path :
  code_attribute fs path = None →
  is_valid missing path = inr false.
Proof.
  intros Hnone. destruct missing; [reflexivity|].
  by rewrite is_valid_outcome, Hnone.
Qed.

(** X4: no [OSError] and no [KeyError] ever leaves the predicate, wherever
    it comes from: opening, the two lookups or the decoding. *)
Theorem is_valid_never_leaks_io_errors missing path e :
  catches [OSError; KeyError] e = true →
  is_valid missing path ≠ inl e.
Proof.
  intros Hcatch. destruct missing; [by intros [=]|].
  rewrite is_valid_outcome.
  destruct (code_attribute fs path) as [code|];
    [|by intros [=]].
  destruct (decode_utf8 code) as [e'|tag]; [|by intros [=]].
  destruct (catches [OSError; KeyError] e') eqn:Hcatch'; [by intros [=]|].
  intros [= ->]. congruence.
Qed.

(** X5: a "Code" that decodes to anything but the tag gives false. *)
Theorem is_valid_other_code missing path code tag :
  code_attribute fs path = Some code →
  decode_utf8 code = inr tag →
  tag ≠ "SWIFT" →
  is_valid missing path = inr false.
Proof.
  intros Hcode Hdecode Hother. destruct missing; [reflexivity|].
  rewrite is_valid_outcome, Hcode, Hdecode. f_equal.
  by apply String.eqb_neq.
Qed.

End Validity.

(** ** The claims on the sample snapshots *)

(** C2: [_is_valid] is not total.  A container whose Header "Code"
    attribute is a byte string that is not UTF-8 makes the decoding raise
    [UnicodeDecodeError], which the [except (OSError, KeyError)] clause
    does not catch: the call raises instead of returning false. *)
Theorem is_valid_raises_on_undecodable_code :
  _is_valid TextSample.decode TextSample.fs false "latin1.hdf5"
    = inl UnicodeDecodeError.
Proof. vm_compute. reflexivity. Qed.

(** The same with a variable-length string attribute, which has no
    [decode] method. *)
Lemma is_valid_raises_on_str_code :
  _is_valid TextSample.decode TextSample.fs false "vlen.hdf5"
    = inl AttributeError.
Proof. vm_compute. reflexivity. Qed.

(** On the files the claim has in mind the predicate answers. *)
Lemma is_valid_on_samples :
  _is_valid TextSample.decode TextSample.fs false "swift.hdf5" = inr true ∧
  _is_valid TextSample.decode TextSample.fs false "gadget.hdf5" = inr false ∧
  _is_valid TextSample.decode TextSample.fs false "untagged.hdf5" = inr false ∧
  _is_valid TextSample.decode TextSample.fs false "absent.hdf5" = inr false ∧
  _is_valid TextSample.decode TextSample.fs true "swift.hdf5" = inr false.
Proof. vm_compute. done. Qed.

(** C4, as stated, fails: two snapshots with the same Parameters group and
    redshifts 1 and 2 in their Header groups are parsed to different
    [current_redshift]. *)
Lemma redshift_not_from_Parameters :
  ¬ cosmology_from_Parameters_alone NumericSample.array_float
      NumericSample.array_int NumericSample.array_zeros_like
      NumericSample.fs NumericSample.maxsize
      NumericSample.list_capacity.
Proof.
  intros Hclaim.
  destruct (Hclaim (NumericSample.fresh "split.hdf5")
              (NumericSample.fresh "split_z2.hdf5") []
              (NumericSample.parsed "split.hdf5") []
              (NumericSample.parsed "split_z2.hdf5") []) as [Hredshift _].
  - vm_compute. reflexivity.
  - vm_compute. reflexivity.
  - vm_compute. discriminate.
  - vm_compute. discriminate.
  - reflexivity.
  - vm_compute in Hredshift.
    apply (f_equal (PrimFloat.eqb 1)) in Hredshift.
    vm_compute in Hredshift. discriminate Hredshift.
Qed.

Lemma missing_cosmology_key_falls_back_witness :
  ∃ d' l',
    _parse_parameter_file NumericSample.array_float NumericSample.array_int
      NumericSample.array_zeros_like NumericSample.fs
      NumericSample.maxsize NumericSample.list_capacity
      (NumericSample.fresh "no_lambda.hdf5", []) = (inr tt, (d', l')) ∧
    l' = fallback_records ∧
    cosmological_simulation d' = 0 ∧
    current_redshift d' = 0%float ∧ omega_lambda d' = 0%float ∧
    omega_matter d' = 0%float ∧ hubble_constant d' = 0%float.
Proof.
  apply (missing_cosmology_key_falls_back NumericSample.array_float
           NumericSample.array_int NumericSample.array_zeros_like
           NumericSample.fs NumericSample.maxsize
           NumericSample.list_capacity (NumericSample.fresh "no_lambda.hdf5") []
           (NumericSample.snapshot NumericSample.header_z1
              NumericSample.policy_cosmological
              NumericSample.parameters_no_lambda)
           NumericSample.header_z1 NumericSample.policy_cosmological
           NumericSample.parameters_no_lambda ∅ ∅ [100; 100; 100]%float
           3 1 0.5%float 1 "Cosmology:Omega_lambda").
  - reflexivity.
  - constructor; reflexivity.
  - unfold NumericSample.maxsize. lia.
  - unfold NumericSample.list_capacity. lia.
  - lia.
  - apply (bool_decide_unpack _). vm_compute. exact I.
  - reflexivity.
  - intros k v Hk Hv. apply list_elem_of_singleton in Hk as ->.
    vm_compute in Hv. injection Hv as <-. eexists. reflexivity.
  - intros k v Hk Hv. vm_compute in Hk.
    repeat (apply elem_of_cons in Hk as [->|Hk]);
      [vm_compute in Hv; first [discriminate Hv | injection Hv as <-];
       eexists; reflexivity.. |].
    apply elem_of_nil in Hk. destruct Hk.
Defined.

Lemma periodicity_uniform_witness :
  ∃ handle params periodic,
    NumericSample.fs "old.hdf5" = Some handle ∧
    handle !! "Parameters" = Some params ∧
    match handle !! "RuntimePars" with
    | Some runtime_parameters =>
        int_item NumericSample.array_int runtime_parameters
          "PeriodicBoundariesOn"
    | None =>
        int_item NumericSample.array_int params "InitialConditions:periodic"
    end = inr periodic ∧
    length (_periodicity (NumericSample.parsed "old.hdf5"))
      = Z.to_nat (dimensionality (NumericSample.parsed "old.hdf5")) ∧
    (0 ≤ dimensionality (NumericSample.parsed "old.hdf5") →
     Z.of_nat (length (_periodicity (NumericSample.parsed "old.hdf5")))
       = dimensionality (NumericSample.parsed "old.hdf5")) ∧
    (periodic ≠ 0 →
     Forall (λ b, b = true) (_periodicity (NumericSample.parsed "old.hdf5"))) ∧
    (periodic = 0 →
     Forall (λ b, b = false) (_periodicity (NumericSample.parsed "old.hdf5"))).
Proof.
  apply (periodicity_uniform NumericSample.array_float NumericSample.array_int
           NumericSample.array_zeros_like NumericSample.fs
           NumericSample.maxsize NumericSample.list_capacity
           (NumericSample.fresh "old.hdf5") []
           (NumericSample.parsed "old.hdf5") (NumericSample.logged "old.hdf5")).
  vm_compute. reflexivity.
Defined.

Lemma cosmology_sources_witness :
  ∃ handle header params,
    NumericSample.fs "split.hdf5" = Some handle ∧
    handle !! "Header" = Some header ∧
    handle !! "Parameters" = Some params ∧
    float_item NumericSample.array_float header "Redshift"
      = inr (current_redshift (NumericSample.parsed "split.hdf5")) ∧
    float_item NumericSample.array_float params "Cosmology:Omega_lambda"
      = inr (omega_lambda (NumericSample.parsed "split.hdf5")) ∧
    omega_matter_of NumericSample.array_float params
      = inr (omega_matter (NumericSample.parsed "split.hdf5")) ∧
    float_item NumericSample.array_float params "Cosmology:h"
      = inr (hubble_constant (NumericSample.parsed "split.hdf5")).
Proof.
  apply (cosmology_sources NumericSample.array_float NumericSample.array_int
           NumericSample.array_zeros_like NumericSample.fs
           NumericSample.maxsize NumericSample.list_capacity
           (NumericSample.fresh "split.hdf5") []
           (NumericSample.parsed "split.hdf5")
           (NumericSample.logged "split.hdf5")).
  - vm_compute. reflexivity.
  - vm_compute. discriminate.
Defined.

Lemma cosmology_parsed_witness :
  ∃ d' l',
    _parse_parameter_file NumericSample.array_float NumericSample.array_int
      NumericSample.array_zeros_like NumericSample.fs
      NumericSample.maxsize NumericSample.list_capacity
      (NumericSample.fresh "split.hdf5", []) = (inr tt, (d', l')) ∧
    l' = [] ∧
    cosmological_simulation d' = 1 ∧
    current_redshift d' = 1%float ∧
    omega_lambda d' = 0.75%float ∧
    omega_matter d' = 0.25%float ∧
    hubble_constant d' = 0.5%float.
Proof.
  apply (cosmology_parsed NumericSample.array_float NumericSample.array_int
           NumericSample.array_zeros_like NumericSample.fs
           NumericSample.maxsize NumericSample.list_capacity
           (NumericSample.fresh "split.hdf5") []
           (NumericSample.snapshot NumericSample.header_z1
              NumericSample.policy_cosmological
              NumericSample.parameters_split)
           NumericSample.header_z1 NumericSample.policy_cosmological
           NumericSample.parameters_split ∅ ∅ [100; 100; 100]%float
           3 1 0.5%float 1).
  - reflexivity.
  - constructor; reflexivity.
  - unfold NumericSample.maxsize. lia.
  - unfold NumericSample.list_capacity. lia.
  - lia.
  - reflexivity.
  - reflexivity.
  - exists 0.0625%float, 0.1875%float. repeat split; reflexivity.
  - reflexivity.
Defined.

Lemma raw_parameters_stored_witness :
  ∃ handle header policy params hydro subgrid runtime_parameters,
    NumericSample.fs "split.hdf5" = Some handle ∧
    handle !! "Header" = Some header ∧
    handle !! "Policy" = Some policy ∧
    handle !! "Parameters" = Some params ∧
    handle !! "HydroScheme" = Some hydro ∧
    handle !! "SubgridScheme" = Some subgrid ∧
    runtime_parameters = default ∅ (handle !! "RuntimePars") ∧
    dom (parameters (NumericSample.parsed "split.hdf5")) =
      list_to_set
        ["header"; "policy"; "parameters"; "runtime_parameters"; "hydro";
         "subgrid"] ∧
    parameters (NumericSample.parsed "split.hdf5") !! "header"
      = Some header ∧
    parameters (NumericSample.parsed "split.hdf5") !! "policy"
      = Some policy ∧
    parameters (NumericSample.parsed "split.hdf5") !! "parameters"
      = Some params ∧
    parameters (NumericSample.parsed "split.hdf5") !! "runtime_parameters"
      = Some runtime_parameters ∧
    parameters (NumericSample.parsed "split.hdf5") !! "hydro" = Some hydro ∧
    parameters (NumericSample.parsed "split.hdf5") !! "subgrid"
      = Some subgrid ∧
    (runtime_parameters = ∅ ↔ handle !! "RuntimePars" = None).
Proof.
  apply (raw_parameters_stored NumericSample.array_float
           NumericSample.array_int NumericSample.array_zeros_like
           NumericSample.fs NumericSample.maxsize
           NumericSample.list_capacity (NumericSample.fresh "split.hdf5") []
           (NumericSample.parsed "split.hdf5")
           (NumericSample.logged "split.hdf5")).
  vm_compute. reflexivity.
Defined.

Lemma non_cosmological_scalars_zero_witness :
  current_redshift (NumericSample.parsed "plain.hdf5") = 0%float ∧
  omega_lambda (NumericSample.parsed "plain.hdf5") = 0%float ∧
  omega_matter (NumericSample.parsed "plain.hdf5") = 0%float ∧
  hubble_constant (NumericSample.parsed "plain.hdf5") = 0%float.
Proof.
  apply (non_cosmological_scalars_zero NumericSample.array_float
           NumericSample.array_int NumericSample.array_zeros_like
           NumericSample.fs NumericSample.maxsize
           NumericSample.list_capacity (NumericSample.fresh "plain.hdf5") []
           (NumericSample.parsed "plain.hdf5")
           (NumericSample.logged "plain.hdf5")).
  - vm_compute. reflexivity.
  - vm_compute. reflexivity.
Defined.

Lemma single_file_snapshot_witness :
  file_count (NumericSample.parsed "old.hdf5") = 1 ∧
  filename_template (NumericSample.parsed "old.hdf5") = "old.hdf5".
Proof.
  apply (single_file_snapshot NumericSample.array_float
           NumericSample.array_int NumericSample.array_zeros_like
           NumericSample.fs NumericSample.maxsize
           NumericSample.list_capacity (NumericSample.fresh "old.hdf5") []
           (NumericSample.parsed "old.hdf5")
           (NumericSample.logged "old.hdf5")).
  vm_compute. reflexivity.
Defined.

Lemma missing_redshift_falls_back_witness :
  ∃ d' l',
    _parse_parameter_file NumericSample.array_float NumericSample.array_int
      NumericSample.array_zeros_like NumericSample.fs
      NumericSample.maxsize NumericSample.list_capacity
      (NumericSample.fresh "no_redshift.hdf5", []) = (inr tt, (d', l')) ∧
    l' = fallback_records ∧
    cosmological_simulation d' = 0 ∧
    current_redshift d' = 0%float ∧ omega_lambda d' = 0%float ∧
    omega_matter d' = 0%float ∧ hubble_constant d' = 0%float.
Proof.
  apply (missing_redshift_falls_back NumericSample.array_float
           NumericSample.array_int NumericSample.array_zeros_like
           NumericSample.fs NumericSample.maxsize
           NumericSample.list_capacity (NumericSample.fresh "no_redshift.hdf5") []
           (NumericSample.snapshot NumericSample.header_no_redshift
              NumericSample.policy_cosmological
              NumericSample.parameters_split)
           NumericSample.header_no_redshift NumericSample.policy_cosmological
           NumericSample.parameters_split ∅ ∅ [100; 100; 100]%float
           3 1 0.5%float 1).
  - reflexivity.
  - constructor; reflexivity.
  - unfold NumericSample.maxsize. lia.
  - unfold NumericSample.list_capacity. lia.
  - lia.
  - reflexivity.
Defined.

Lemma code_units_from_Units_witness :
  ∃ d' l',
    _set_code_unit_attributes NumericSample.array_float NumericSample.fs true
      (set_cosmological_simulation 1 (NumericSample.fresh "split.hdf5"), [])
      = (inr tt, (d', l')) ∧
    length_unit d' = quan NumericSample.U_L "cmcm" ∧
    mass_unit d' = quan NumericSample.U_M "g" ∧
    time_unit d' = quan NumericSample.U_t "s" ∧
    temperature_unit d' = quan NumericSample.U_T "K".
Proof.
  apply (code_units_from_Units NumericSample.array_float NumericSample.fs true
           (set_cosmological_simulation 1 (NumericSample.fresh "split.hdf5"))
           []
           (NumericSample.snapshot NumericSample.header_z1
              NumericSample.policy_cosmological
              NumericSample.parameters_split)
           NumericSample.units_group).
  - reflexivity.
  - reflexivity.
  - reflexivity.
  - reflexivity.
  - reflexivity.
  - reflexivity.
Defined.

(** ** Further properties on the sample snapshots *)

Lemma parse_unopenable_witness :
  _parse_parameter_file NumericSample.array_float NumericSample.array_int
    NumericSample.array_zeros_like EdgeSample.fs
    NumericSample.maxsize NumericSample.list_capacity
    (NumericSample.fresh "nowhere.hdf5", [])
  = (inl OSError, (NumericSample.fresh "nowhere.hdf5", [])).
Proof.
  apply (parse_unopenable NumericSample.array_float NumericSample.array_int
           NumericSample.array_zeros_like EdgeSample.fs
           NumericSample.maxsize NumericSample.list_capacity
           (NumericSample.fresh "nowhere.hdf5") []).
  reflexivity.
Defined.

Lemma parse_missing_group_witness :
  _parse_parameter_file NumericSample.array_float NumericSample.array_int
    NumericSample.array_zeros_like EdgeSample.fs
    NumericSample.maxsize NumericSample.list_capacity
    (NumericSample.fresh "no_hydro.hdf5", [])
  = (inl KeyError, (NumericSample.fresh "no_hydro.hdf5", [])).
Proof.
  apply (parse_missing_group NumericSample.array_float NumericSample.array_int
           NumericSample.array_zeros_like EdgeSample.fs
           NumericSample.maxsize NumericSample.list_capacity
           (NumericSample.fresh "no_hydro.hdf5") []
           (delete "HydroScheme" EdgeSample.whole) "HydroScheme").
  - reflexivity.
  - apply (bool_decide_unpack _). vm_compute. exact I.
  - reflexivity.
Defined.

Lemma parse_missing_box_size_witness :
  _parse_parameter_file NumericSample.array_float NumericSample.array_int
    NumericSample.array_zeros_like EdgeSample.fs
    NumericSample.maxsize NumericSample.list_capacity
    (NumericSample.fresh "no_box.hdf5", [])
  = (inl KeyError, (NumericSample.fresh "no_box.hdf5", [])).
Proof.
  apply (parse_missing_box_size NumericSample.array_float
           NumericSample.array_int NumericSample.array_zeros_like
           EdgeSample.fs NumericSample.maxsize
           NumericSample.list_capacity (NumericSample.fresh "no_box.hdf5") []
           (NumericSample.snapshot (delete "BoxSize" NumericSample.header_z1)
              NumericSample.policy_cosmological
              NumericSample.parameters_split)
           (delete "BoxSize" NumericSample.header_z1)
           NumericSample.policy_cosmological NumericSample.parameters_split
           ∅ ∅); reflexivity.
Defined.

Lemma parse_missing_dimension_witness :
  _parse_parameter_file NumericSample.array_float NumericSample.array_int
    NumericSample.array_zeros_like EdgeSample.fs
    NumericSample.maxsize NumericSample.list_capacity
    (NumericSample.fresh "no_dimension.hdf5", [])
  = (inl KeyError,
     (set_domain_left_edge [0; 0; 0]%float
        (set_domain_right_edge [100; 100; 100]%float
           (NumericSample.fresh "no_dimension.hdf5")),
      [])).
Proof.
  apply (parse_missing_dimension NumericSample.array_float
           NumericSample.array_int NumericSample.array_zeros_like
           EdgeSample.fs NumericSample.maxsize
           NumericSample.list_capacity (NumericSample.fresh "no_dimension.hdf5") []
           (NumericSample.snapshot
              (delete "Dimension" NumericSample.header_z1)
              NumericSample.policy_cosmological
              NumericSample.parameters_split)
           (delete "Dimension" NumericSample.header_z1)
           NumericSample.policy_cosmological NumericSample.parameters_split
           ∅ ∅ [100; 100; 100]%float); reflexivity.
Defined.

Lemma cosmology_error_escapes_witness :
  ∃ d' l',
    _parse_parameter_file NumericSample.array_float NumericSample.array_int
      NumericSample.array_zeros_like EdgeSample.fs
      NumericSample.maxsize NumericSample.list_capacity
      (NumericSample.fresh "pair_lambda.hdf5", [])
    = (inl TypeError, (d', l')) ∧
    domain_right_edge d' = [100; 100; 100]%float ∧
    domain_left_edge d' = NumericSample.array_zeros_like [100; 100; 100]%float ∧
    dimensionality d' = 3 ∧
    _periodicity d' = replicate (Z.to_nat 3) (negb (1 =? 0)) ∧
    current_time d' = 0.5%float.
Proof.
  apply (cosmology_error_escapes NumericSample.array_float
           NumericSample.array_int NumericSample.array_zeros_like
           EdgeSample.fs NumericSample.maxsize
           NumericSample.list_capacity (NumericSample.fresh "pair_lambda.hdf5") []
           (NumericSample.snapshot NumericSample.header_z1
              NumericSample.policy_cosmological
              EdgeSample.parameters_pair_lambda)
           NumericSample.header_z1 NumericSample.policy_cosmological
           EdgeSample.parameters_pair_lambda ∅ ∅ [100; 100; 100]%float
           3 1 0.5%float 1 TypeError).
  - reflexivity.
  - constructor; reflexivity.
  - unfold NumericSample.maxsize. lia.
  - unfold NumericSample.list_capacity. lia.
  - lia.
  - reflexivity.
  - reflexivity.
Defined.

Lemma parse_leaves_paths_and_units_witness :
  same_paths_and_units (NumericSample.fresh "no_dimension.hdf5")
    (EdgeSample.parse "no_dimension.hdf5").2.1 ∧
  [] `prefix_of` (EdgeSample.parse "no_dimension.hdf5").2.2.
Proof.
  apply (parse_leaves_paths_and_units NumericSample.array_float
           NumericSample.array_int NumericSample.array_zeros_like
           EdgeSample.fs NumericSample.maxsize
           NumericSample.list_capacity (NumericSample.fresh "no_dimension.hdf5") []
           (EdgeSample.parse "no_dimension.hdf5").1).
  vm_compute. reflexivity.
Defined.

Lemma units_leave_the_rest_witness :
  same_but_units (EdgeSample.comoving "no_mass.hdf5")
    (EdgeSample.set_units true (EdgeSample.comoving "no_mass.hdf5")).2.1 ∧
  [] `prefix_of`
    (EdgeSample.set_units true (EdgeSample.comoving "no_mass.hdf5")).2.2.
Proof.
  apply (units_leave_the_rest NumericSample.array_float EdgeSample.fs true
           (EdgeSample.comoving "no_mass.hdf5") []
           (EdgeSample.set_units true (EdgeSample.comoving "no_mass.hdf5")).1).
  vm_compute. reflexivity.
Defined.

Lemma domain_from_header_witness :
  ∃ handle header,
    NumericSample.fs "split.hdf5" = Some handle ∧
    handle !! "Header" = Some header ∧
    header !! "BoxSize"
      = Some (domain_right_edge (NumericSample.parsed "split.hdf5")) ∧
    domain_left_edge (NumericSample.parsed "split.hdf5")
      = NumericSample.array_zeros_like
          (domain_right_edge (NumericSample.parsed "split.hdf5")) ∧
    float_item NumericSample.array_float header "Time"
      = inr (current_time (NumericSample.parsed "split.hdf5")).
Proof.
  apply (domain_from_header NumericSample.array_float NumericSample.array_int
           NumericSample.array_zeros_like NumericSample.fs
           NumericSample.maxsize NumericSample.list_capacity
           (NumericSample.fresh "split.hdf5") []
           (NumericSample.parsed "split.hdf5")
           (NumericSample.logged "split.hdf5")).
  vm_compute. reflexivity.
Defined.

Lemma derived_fields_in_raw_parameters_witness :
  ∃ header policy,
    parameters (NumericSample.parsed "old.hdf5") !! "header" = Some header ∧
    parameters (NumericSample.parsed "old.hdf5") !! "policy" = Some policy ∧
    header !! "BoxSize"
      = Some (domain_right_edge (NumericSample.parsed "old.hdf5")) ∧
    int_item NumericSample.array_int header "Dimension"
      = inr (dimensionality (NumericSample.parsed "old.hdf5")) ∧
    float_item NumericSample.array_float header "Time"
      = inr (current_time (NumericSample.parsed "old.hdf5")) ∧
    (cosmological_simulation (NumericSample.parsed "old.hdf5") = 0 ∨
     int_item NumericSample.array_int policy "cosmological integration"
       = inr (cosmological_simulation (NumericSample.parsed "old.hdf5"))).
Proof.
  apply (derived_fields_in_raw_parameters NumericSample.array_float
           NumericSample.array_int NumericSample.array_zeros_like
           NumericSample.fs NumericSample.maxsize
           NumericSample.list_capacity (NumericSample.fresh "old.hdf5") []
           (NumericSample.parsed "old.hdf5")
           (NumericSample.logged "old.hdf5")).
  vm_compute. reflexivity.
Defined.

Lemma parse_log_witness :
  ∃ handle policy flag,
    NumericSample.fs "no_lambda.hdf5" = Some handle ∧
    handle !! "Policy" = Some policy ∧
    int_item NumericSample.array_int policy "cosmological integration"
      = inr flag ∧
    NumericSample.logged "no_lambda.hdf5" =
      ([] ++
       if negb (flag =? 0) &&
          (cosmological_simulation (NumericSample.parsed "no_lambda.hdf5")
             =? 0)
       then fallback_records else [])%list.
Proof.
  apply (parse_log NumericSample.array_float NumericSample.array_int
           NumericSample.array_zeros_like NumericSample.fs
           NumericSample.maxsize NumericSample.list_capacity
           (NumericSample.fresh "no_lambda.hdf5") []
           (NumericSample.parsed "no_lambda.hdf5")
           (NumericSample.logged "no_lambda.hdf5")).
  vm_compute. reflexivity.
Defined.

Lemma parse_twice_witness :
  ∃ l'',
    _parse_parameter_file NumericSample.array_float NumericSample.array_int
      NumericSample.array_zeros_like NumericSample.fs
      NumericSample.maxsize NumericSample.list_capacity
      (NumericSample.parsed "no_lambda.hdf5",
       NumericSample.logged "no_lambda.hdf5")
    = (inr tt, (NumericSample.parsed "no_lambda.hdf5", l'')).
Proof.
  apply (parse_twice NumericSample.array_float NumericSample.array_int
           NumericSample.array_zeros_like NumericSample.fs
           NumericSample.maxsize NumericSample.list_capacity
           (NumericSample.fresh "no_lambda.hdf5") []
           (NumericSample.parsed "no_lambda.hdf5")
           (NumericSample.logged "no_lambda.hdf5")).
  vm_compute. reflexivity.
Defined.

Lemma units_log_witness :
  (EdgeSample.set_units true (EdgeSample.comoving "whole.hdf5")).2.2
  = [(INFO, "Assuming length units are in comoving centimetres")].
Proof.
  apply (units_log NumericSample.array_float EdgeSample.fs true
           (EdgeSample.comoving "whole.hdf5") []
           (EdgeSample.set_units true (EdgeSample.comoving "whole.hdf5")).2.1
           (EdgeSample.set_units true (EdgeSample.comoving "whole.hdf5")).2.2).
  vm_compute. reflexivity.
Defined.

Lemma units_twice_witness :
  ∃ l'',
    _set_code_unit_attributes NumericSample.array_float EdgeSample.fs true
      ((EdgeSample.set_units true (EdgeSample.comoving "whole.hdf5")).2.1,
       (EdgeSample.set_units true (EdgeSample.comoving "whole.hdf5")).2.2)
    = (inr tt,
       ((EdgeSample.set_units true (EdgeSample.comoving "whole.hdf5")).2.1,
        l'')).
Proof.
  apply (units_twice NumericSample.array_float EdgeSample.fs true
           (EdgeSample.comoving "whole.hdf5") []).
  vm_compute. reflexivity.
Defined.

Lemma units_without_group_witness :
  ∃ e,
    _set_code_unit_attributes NumericSample.array_float EdgeSample.fs true
      (NumericSample.fresh "no_units.hdf5", [])
    = (inl e, (NumericSample.fresh "no_units.hdf5", [])) ∧
    (e = OSError ∨ e = KeyError).
Proof.
  apply (units_without_group NumericSample.array_float EdgeSample.fs true
           (NumericSample.fresh "no_units.hdf5") []).
  reflexivity.
Defined.

Lemma units_missing_length_witness :
  _set_code_unit_attributes NumericSample.array_float EdgeSample.fs true
    (NumericSample.fresh "no_length.hdf5", [])
  = (inl KeyError,
     (NumericSample.fresh "no_length.hdf5",
      [(INFO, "Assuming length units are in physical centimetres")])).
Proof.
  apply (units_missing_length NumericSample.array_float EdgeSample.fs true
           (NumericSample.fresh "no_length.hdf5") []
           (<["Units" := delete "Unit length in cgs (U_L)"
                           NumericSample.units_group]> EdgeSample.whole)
           (delete "Unit length in cgs (U_L)" NumericSample.units_group));
    reflexivity.
Defined.

Lemma units_missing_mass_witness :
  _set_code_unit_attributes NumericSample.array_float EdgeSample.fs false
    (EdgeSample.comoving "no_mass.hdf5", [])
  = (inl KeyError,
     (set_length_unit (quan NumericSample.U_L "cmcm")
        (EdgeSample.comoving "no_mass.hdf5"),
      [])).
Proof.
  apply (units_missing_mass NumericSample.array_float EdgeSample.fs false
           (EdgeSample.comoving "no_mass.hdf5") []
           (<["Units" := delete "Unit mass in cgs (U_M)"
                           NumericSample.units_group]> EdgeSample.whole)
           (delete "Unit mass in cgs (U_M)" NumericSample.units_group));
    reflexivity.
Defined.

Lemma fallback_gives_physical_length_witness :
  ∃ d'' l'',
    (_parse_parameter_file NumericSample.array_float NumericSample.array_int
       NumericSample.array_zeros_like EdgeSample.fs
       NumericSample.maxsize NumericSample.list_capacity;;
     _set_code_unit_attributes NumericSample.array_float EdgeSample.fs true)
      (NumericSample.fresh "no_redshift.hdf5", [])
    = (inr tt, (d'', l'')) ∧
    cosmological_simulation d'' = 0 ∧
    length_unit d'' = quan NumericSample.U_L "cm".
Proof.
  apply (fallback_gives_physical_length NumericSample.array_float
           NumericSample.array_int NumericSample.array_zeros_like
           EdgeSample.fs NumericSample.maxsize
           NumericSample.list_capacity true (NumericSample.fresh "no_redshift.hdf5") []
           (NumericSample.snapshot NumericSample.header_no_redshift
              NumericSample.policy_cosmological
              NumericSample.parameters_split)
           NumericSample.header_no_redshift NumericSample.policy_cosmological
           NumericSample.parameters_split ∅ ∅ [100; 100; 100]%float
           3 1 0.5%float 1 NumericSample.units_group
           NumericSample.U_L NumericSample.U_M NumericSample.U_t
           NumericSample.U_T).
  - reflexivity.
  - constructor; reflexivity.
  - unfold NumericSample.maxsize. lia.
  - unfold NumericSample.list_capacity. lia.
  - lia.
  - reflexivity.
  - reflexivity.
  - reflexivity.
  - reflexivity.
  - reflexivity.
  - reflexivity.
Defined.

Lemma units_after_cosmological_parse_witness :
  ∃ d'' l'',
    (_parse_parameter_file NumericSample.array_float NumericSample.array_int
       NumericSample.array_zeros_like EdgeSample.fs
       NumericSample.maxsize NumericSample.list_capacity;;
     _set_code_unit_attributes NumericSample.array_float EdgeSample.fs true)
      (NumericSample.fresh "flag_two.hdf5", [])
    = (inr tt, (d'', l'')) ∧
    cosmological_simulation d'' = 2 ∧
    current_redshift d'' = 1%float ∧
    omega_matter d'' = 0.25%float ∧
    length_unit d'' = quan NumericSample.U_L "cm".
Proof.
  apply (units_after_cosmological_parse NumericSample.array_float
           NumericSample.array_int NumericSample.array_zeros_like
           EdgeSample.fs NumericSample.maxsize
           NumericSample.list_capacity true (NumericSample.fresh "flag_two.hdf5") []
           (NumericSample.snapshot NumericSample.header_z1
              EdgeSample.policy_two NumericSample.parameters_split)
           NumericSample.header_z1 EdgeSample.policy_two
           NumericSample.parameters_split ∅ ∅ [100; 100; 100]%float
           3 1 0.5%float 2 1%float 0.75%float 0.25%float 0.5%float
           NumericSample.units_group
           NumericSample.U_L NumericSample.U_M NumericSample.U_t
           NumericSample.U_T).
  - reflexivity.
  - constructor; reflexivity.
  - unfold NumericSample.maxsize. lia.
  - unfold NumericSample.list_capacity. lia.
  - lia.
  - reflexivity.
  - reflexivity.
  - reflexivity.
  - reflexivity.
  - reflexivity.
  - reflexivity.
Defined.

Lemma is_valid_false_without_code_witness :
  _is_valid TextSample.decode TextSample.fs false "untagged.hdf5" = inr false.
Proof.
  apply (is_valid_false_without_code TextSample.decode TextSample.fs false
           "untagged.hdf5").
  reflexivity.
Defined.

Lemma is_valid_never_leaks_io_errors_witness :
  _is_valid TextSample.decode TextSample.fs false "absent.hdf5"
  ≠ inl OSError.
Proof.
  apply (is_valid_never_leaks_io_errors TextSample.decode TextSample.fs false
           "absent.hdf5" OSError).
  reflexivity.
Defined.

Lemma is_valid_other_code_witness :
  _is_valid TextSample.decode TextSample.fs false "gadget.hdf5" = inr false.
Proof.
  apply (is_valid_other_code TextSample.decode TextSample.fs false
           "gadget.hdf5" (TextSample.FixedString "GADGET") "GADGET").
  - reflexivity.
  - reflexivity.
  - discriminate.
Defined.

Lemma parse_dimension_not_index_sized_witness :
  _parse_parameter_file NumericSample.array_float NumericSample.array_int
    NumericSample.array_zeros_like EdgeSample.fs NumericSample.maxsize
    NumericSample.list_capacity
    (NumericSample.fresh "huge_dimension.hdf5", [])
  = (inl OverflowError,
     (set_dimensionality 10000000000000000000
        (set_domain_left_edge
           (NumericSample.array_zeros_like [100; 100; 100]%float)
           (set_domain_right_edge [100; 100; 100]%float
              (NumericSample.fresh "huge_dimension.hdf5"))),
      [])).
Proof.
  apply (parse_dimension_not_index_sized NumericSample.array_float
           NumericSample.array_int NumericSample.array_zeros_like
           EdgeSample.fs NumericSample.maxsize NumericSample.list_capacity
           (NumericSample.fresh "huge_dimension.hdf5") []
           (NumericSample.snapshot
              (<["Dimension" := [1e19%float]]> NumericSample.header_z1)
              NumericSample.policy_cosmological
              NumericSample.parameters_split)
           (<["Dimension" := [1e19%float]]> NumericSample.header_z1)
           NumericSample.policy_cosmological NumericSample.parameters_split
           ∅ ∅ [100; 100; 100]%float 10000000000000000000 1).
  - reflexivity.
  - reflexivity.
  - reflexivity.
  - reflexivity.
  - reflexivity.
  - reflexivity.
  - reflexivity.
  - vm_compute. reflexivity.
  - reflexivity.
  - right. unfold NumericSample.maxsize. lia.
Defined.
